(** * Atlas trip-planner backend: the tools, the request handler and the
      reasoning loop, embedded from [src/agent_logic.py] and [src/main.py].

    The Python code is embedded shallowly.  A Python expression that can
    raise evaluates to a [result]; a statement sequence that prints or
    talks to the outside world is a computation [Eff] that threads the
    history of those interactions (an [event] list) and may end in a raised
    exception.  Everything the repository only calls (the JSON decoder,
    [requests], the Google search wrapper, the system clock, the environment
    variables, standard output, the web framework's validation, the agent
    executor) is a field of the [World] record: the theorems quantify over
    every world. *)

From Stdlib Require Import ZArith List String Ascii Bool Lia.
From Stdlib Require Import Numbers.DecimalString.
Import ListNotations.
Open Scope string_scope.
Set Warnings "-register-all".

(** ** Text helpers *)

(** The double quote and the line feed, by code. *)
Definition dquote : string := String "034"%char EmptyString.
Definition newline : string := String "010"%char EmptyString.

(** [str.join]: [sep.join(parts)]. *)
Definition join (sep : string) (parts : list string) : string :=
  String.concat sep parts.

(** Decimal rendering of an integer, as [str(int)] gives it. *)
Definition string_of_Z (z : Z) : string :=
  NilZero.string_of_int (Z.to_int z).

(** [needle in hay] on strings. *)
Fixpoint contains (needle hay : string) : bool :=
  prefix needle hay
  || match hay with
     | EmptyString => false
     | String _ rest => contains needle rest
     end.

Definition is_digit (c : ascii) : bool :=
  (48 <=? nat_of_ascii c)%nat && (nat_of_ascii c <=? 57)%nat.

Fixpoint all_digits (s : string) : bool :=
  match s with
  | EmptyString => true
  | String c rest => is_digit c && all_digits rest
  end.

(** Text is kept as UTF-8 bytes.  A lone surrogate, which Python's [str]
    can hold and UTF-8 cannot encode, is kept as the three bytes that the
    [surrogatepass] handler gives it: 237, then a byte from 160 to 191,
    then one more.  No encodable text holds the first two in a row. *)
Definition is_surrogate_lead (c : ascii) : bool := (nat_of_ascii c =? 237)%nat.

Definition is_surrogate_next (c : ascii) : bool :=
  (160 <=? nat_of_ascii c)%nat && (nat_of_ascii c <=? 191)%nat.

Fixpoint surrogate_after (after_lead : bool) (s : string) : bool :=
  match s with
  | EmptyString => false
  | String c rest =>
      (after_lead && is_surrogate_next c) || surrogate_after (is_surrogate_lead c) rest
  end.

(** The text holds a lone surrogate: [s.encode("utf-8")] raises. *)
Definition has_surrogate (s : string) : bool := surrogate_after false s.

(** ** Python values and exceptions *)

Module Py.

(** A float is kept by what the program and the response encoder observe
    of it: whether it is zero (truth value), whether it is finite (neither
    NaN nor an infinity, which JSON cannot carry), and its [repr]
    (formatting). *)
Record pyfloat := { float_is_zero : bool; float_is_finite : bool; float_repr : string }.

(** The values [json.loads] produces.  A dict keeps its insertion order and
    holds each key once; its keys are strings. *)
Inductive pyval : Type :=
| PNone
| PBool (b : bool)
| PInt (z : Z)
| PFloat (f : pyfloat)
| PStr (s : string)
| PList (items : list pyval)
| PDict (entries : list (string * pyval)).

(** The classes of [Exception] the handlers tell apart.  [RequestException]
    stands for [requests.exceptions.RequestException] and its subclasses
    ([HTTPError], [ConnectionError], [Timeout], the decode error of
    [Response.json]); [JSONDecodeError] is the standard library's, a
    [ValueError].  Signals outside [Exception] ([KeyboardInterrupt],
    [SystemExit]) are not modelled. *)
Inductive exn_class : Type :=
| KeyError
| IndexError
| TypeError
| AttributeError
| JSONDecodeError
| RequestException
| OtherException (class_name : string).

(** An exception instance: its class and [str(e)]. *)
Record exn := mk_exn { exn_cls : exn_class; exn_str : string }.

Definition is_request_exception (e : exn) : bool :=
  match exn_cls e with
  | RequestException => true
  | _ => false
  end.

Inductive result (A : Type) : Type :=
| Ok (a : A)
| Raise (e : exn).

Arguments Ok {A} a.
Arguments Raise {A} e.

Definition type_name (v : pyval) : string :=
  match v with
  | PNone => "NoneType"
  | PBool _ => "bool"
  | PInt _ => "int"
  | PFloat _ => "float"
  | PStr _ => "str"
  | PList _ => "list"
  | PDict _ => "dict"
  end.

(** [bool(v)], the test behind [not v]. *)
Definition truthy (v : pyval) : bool :=
  match v with
  | PNone => false
  | PBool b => b
  | PInt z => negb (z =? 0)%Z
  | PFloat f => negb (float_is_zero f)
  | PStr s => negb (String.eqb s EmptyString)
  | PList items => match items with [] => false | _ :: _ => true end
  | PDict entries => match entries with [] => false | _ :: _ => true end
  end.

Fixpoint dict_lookup (key : string) (entries : list (string * pyval)) : option pyval :=
  match entries with
  | [] => None
  | (k, v) :: rest => if String.eqb k key then Some v else dict_lookup key rest
  end.

Definition has_key (key : string) (entries : list (string * pyval)) : bool :=
  match dict_lookup key entries with
  | Some _ => true
  | None => false
  end.

End Py.
Export Py.

(** ** Calendar dates and [strftime]

    [datetime.date] as the standard library defines it: a proleptic
    Gregorian date, with the weekday computed from the day's ordinal, and
    [strftime] in the C locale for the directives the program uses. *)

Module Datetime.

Record date := { year : Z; month : Z; day : Z }.

Definition is_leap (y : Z) : bool :=
  ((y mod 4 =? 0) && (negb (y mod 100 =? 0) || (y mod 400 =? 0)))%Z.

Definition days_in_month (y m : Z) : Z :=
  if (m =? 2)%Z then (if is_leap y then 29 else 28)%Z
  else if ((m =? 4) || (m =? 6) || (m =? 9) || (m =? 11))%Z then 30%Z
  else 31%Z.

(** The invariant every [datetime.date] satisfies. *)
Definition valid_date (d : date) : Prop :=
  (1 <= year d <= 9999 /\ 1 <= month d <= 12
   /\ 1 <= day d <= days_in_month (year d) (month d))%Z.

Definition days_before_year (y : Z) : Z :=
  let y1 := (y - 1)%Z in
  (y1 * 365 + y1 / 4 - y1 / 100 + y1 / 400)%Z.

Fixpoint days_before_month_from (y : Z) (m : nat) : Z :=
  match m with
  | O => 0%Z
  | S k => (days_before_month_from y k + days_in_month y (Z.of_nat m))%Z
  end.

(** Days of the year [y] that precede the first of month [m]. *)
Definition days_before_month (y m : Z) : Z :=
  days_before_month_from y (Z.to_nat (m - 1)).

(** [date.toordinal()]: 1 for 0001-01-01. *)
Definition toordinal (d : date) : Z :=
  (days_before_year (year d) + days_before_month (year d) (month d) + day d)%Z.

(** [date.weekday()]: 0 for Monday, 6 for Sunday. *)
Definition weekday (d : date) : Z := ((toordinal d + 6) mod 7)%Z.

Definition day_names : list string :=
  ["Monday"; "Tuesday"; "Wednesday"; "Thursday"; "Friday"; "Saturday"; "Sunday"].

Definition month_names : list string :=
  ["January"; "February"; "March"; "April"; "May"; "June"; "July";
   "August"; "September"; "October"; "November"; "December"].

Definition day_name (d : date) : string :=
  nth (Z.to_nat (weekday d)) day_names EmptyString.

Definition month_name (d : date) : string :=
  nth (Z.to_nat (month d - 1)) month_names EmptyString.

Definition digit_char (n : Z) : ascii := ascii_of_nat (48 + Z.to_nat n).

(** Two digits, zero padded: the directive [%d]. *)
Definition two_digits (n : Z) : string :=
  String (digit_char (n / 10)) (String (digit_char (n mod 10)) EmptyString).

(** One directive of [strftime].  [%Y] is the year in decimal, which has
    four digits from the year 1000 on. *)
Definition directive (c : ascii) (d : date) : string :=
  if Ascii.eqb c "A" then day_name d
  else if Ascii.eqb c "B" then month_name d
  else if Ascii.eqb c "d" then two_digits (day d)
  else if Ascii.eqb c "Y" then string_of_Z (year d)
  else if Ascii.eqb c "%" then "%"
  else String "%" (String c EmptyString).

Fixpoint strftime (format : string) (d : date) : string :=
  match format with
  | EmptyString => EmptyString
  | String c rest =>
      if Ascii.eqb c "%" then
        match rest with
        | EmptyString => String c EmptyString
        | String k rest' => directive k d ++ strftime rest' d
        end
      else String c (strftime rest d)
  end.

End Datetime.
Export Datetime.

(** ** The outside world and the effects of a run *)

(** What [requests.get] hands back: the fields [raise_for_status] and
    [json] read. *)
Record http_response := {
  status_code : Z;
  reason : string;
  url : string;
  text : string
}.

(** [UserRequest] of [main.py]: the request body once the web framework
    has validated its shape. *)
Record UserRequest := {
  origin : string;
  destination : string;
  start_date : string;
  duration_days : Z;
  notes : option string
}.

(** Everything the repository calls and does not define.  Each field is
    the behaviour of one external call; a theorem that quantifies over the
    world holds whatever these calls do. *)
Record World := {
  (** [os.getenv(name)] *)
  getenv : string -> option string;
  (** what [print(line)] raises when standard output cannot take the
      line (a text it cannot encode, a closed stream): the class name and
      the message, or nothing when the line is written *)
  stdout_fault : string -> option (string * string);
  (** the web framework's validation of a request body against
      [UserRequest]: the request, or the detail of the 422 reply *)
  validate_request : pyval -> UserRequest + pyval;
  (** [datetime.date.today()] *)
  today : date;
  (** [json.loads(text)]: the decoded value, or the message of the
      [JSONDecodeError] it raises *)
  json_decode : string -> pyval + string;
  (** [repr(s)] of a string; it escapes what cannot be encoded *)
  repr_str : string -> string;
  repr_str_encodable : forall s, has_surrogate (repr_str s) = false;
  (** [requests.get(url, headers=..., params=...)] *)
  http_get : string -> list (string * option string) -> list (string * pyval)
             -> result http_response;
  (** [GoogleSearchAPIWrapper(google_api_key=..., google_cse_id=...).run(query)] *)
  google_search_run : option string -> option string -> string -> result string;
  (** [trip_planner_agent.invoke(agent_input)] *)
  agent_invoke : pyval -> result pyval
}.

(** The interactions of a run, in the order they happen. *)
Inductive event : Type :=
| EvPrint (line : string)
| EvHttpGet (url : string) (headers : list (string * option string))
            (params : list (string * pyval))
| EvGoogleSearch (api_key cse_id : option string) (query : string)
| EvAgentInvoke (agent_input : pyval).

(** A computation: from the history so far to the history after it and
    either a value or a raised exception. *)
Definition Eff (A : Type) : Type := list event -> list event * result A.

Definition ret {A : Type} (a : A) : Eff A := fun h => (h, Ok a).

Definition bind {A B : Type} (m : Eff A) (k : A -> Eff B) : Eff B :=
  fun h =>
    match m h with
    | (h', Ok a) => k a h'
    | (h', Raise e) => (h', Raise e)
    end.

(** An expression that may raise, as a computation without effects. *)
Definition lift {A : Type} (r : result A) : Eff A := fun h => (h, r).

Definition emit (ev : event) : Eff unit := fun h => ((h ++ [ev])%list, Ok tt).

(** [try: body / except Exception as e: handler e]. *)
Definition try_except {A : Type} (body : Eff A) (handler : exn -> Eff A) : Eff A :=
  fun h =>
    match body h with
    | (h', Ok a) => (h', Ok a)
    | (h', Raise e) => handler e h'
    end.

Declare Scope eff_scope.
Delimit Scope eff_scope with eff.
Notation "x <- m ;; k" := (bind m (fun x => k))
  (at level 100, m at next level, right associativity) : eff_scope.
Notation "m ;; k" := (bind m (fun _ => k))
  (at level 100, right associativity) : eff_scope.
Open Scope eff_scope.

(** A run from the empty history. *)
Definition run {A : Type} (m : Eff A) : list event * result A := m [].
Definition outcome {A : Type} (m : Eff A) : result A := snd (run m).
Definition history {A : Type} (m : Eff A) : list event := fst (run m).

Definition is_http_get (ev : event) : bool :=
  match ev with EvHttpGet _ _ _ => true | _ => false end.


(** ** Python operations that read the world *)

Section Runtime.

Variable w : World.

(** [print(line)]: the line is written, or standard output raises and
    nothing is written. *)
Definition print (line : string) : Eff unit :=
  match stdout_fault w line with
  | None => emit (EvPrint line)
  | Some (class_name, message) => lift (Raise (mk_exn (OtherException class_name) message))
  end.

(** [json.loads(text)]. *)
Definition json_loads (source : string) : result pyval :=
  match json_decode w source with
  | inl v => Ok v
  | inr message => Raise (mk_exn JSONDecodeError message)
  end.

(** [repr(v)]. *)
Fixpoint py_repr (v : pyval) : string :=
  match v with
  | PNone => "None"
  | PBool b => if b then "True" else "False"
  | PInt z => string_of_Z z
  | PFloat f => float_repr f
  | PStr s => repr_str w s
  | PList items => "[" ++ join ", " (map py_repr items) ++ "]"
  | PDict entries =>
      "{" ++ join ", " (map (fun kv => match kv with
                                        | (k, x) => repr_str w k ++ ": " ++ py_repr x
                                        end) entries) ++ "}"
  end.

(** [str(v)], which is what a replacement field of an f-string renders. *)
Definition py_str (v : pyval) : string :=
  match v with
  | PStr s => s
  | _ => py_repr v
  end.

(** [v[key]] for a string key. *)
Definition py_getitem (v : pyval) (key : string) : result pyval :=
  match v with
  | PDict entries =>
      match dict_lookup key entries with
      | Some x => Ok x
      | None => Raise (mk_exn KeyError (repr_str w key))
      end
  | PList _ => Raise (mk_exn TypeError "list indices must be integers or slices, not str")
  | PStr _ => Raise (mk_exn TypeError "string indices must be integers, not 'str'")
  | _ => Raise (mk_exn TypeError ("'" ++ type_name v ++ "' object is not subscriptable"))
  end.

(** [v.get(key, default)]; [v.get(key)] is [py_get v key PNone]. *)
Definition py_get (v : pyval) (key : string) (default : pyval) : result pyval :=
  match v with
  | PDict entries =>
      Ok (match dict_lookup key entries with
          | Some x => x
          | None => default
          end)
  | _ => Raise (mk_exn AttributeError
                  ("'" ++ type_name v ++ "' object has no attribute 'get'"))
  end.

(** [v[0]].  A decoded dict has string keys only, so the key [0] is never
    one of them. *)
Definition py_index0 (v : pyval) : result pyval :=
  match v with
  | PList [] => Raise (mk_exn IndexError "list index out of range")
  | PList (x :: _) => Ok x
  | PStr EmptyString => Raise (mk_exn IndexError "string index out of range")
  | PStr (String c _) => Ok (PStr (String c EmptyString))
  | PDict _ => Raise (mk_exn KeyError "0")
  | _ => Raise (mk_exn TypeError ("'" ++ type_name v ++ "' object is not subscriptable"))
  end.

(** [v[:3]]. *)
Definition py_slice3 (v : pyval) : result pyval :=
  match v with
  | PList items => Ok (PList (firstn 3 items))
  | PStr s => Ok (PStr (substring 0 3 s))
  | PDict _ => Raise (mk_exn TypeError "unhashable type: 'slice'")
  | _ => Raise (mk_exn TypeError ("'" ++ type_name v ++ "' object is not subscriptable"))
  end.

(** The elements a [for] loop draws from [v]. *)
Definition py_iter (v : pyval) : result (list pyval) :=
  match v with
  | PList items => Ok items
  | PStr s => Ok (map (fun c => PStr (String c EmptyString)) (list_ascii_of_string s))
  | PDict entries => Ok (map (fun kv => PStr (fst kv)) entries)
  | _ => Raise (mk_exn TypeError ("'" ++ type_name v ++ "' object is not iterable"))
  end.

(** [requests.get]: the call is recorded, the world answers. *)
Definition requests_get (api_url : string) (headers : list (string * option string))
    (params : list (string * pyval)) : Eff http_response :=
  emit (EvHttpGet api_url headers params);;
  lift (http_get w api_url headers params).

(** [response.raise_for_status()]: an [HTTPError] for a 4xx or 5xx status. *)
Definition raise_for_status (response : http_response) : result unit :=
  let code := status_code response in
  if ((400 <=? code) && (code <? 500))%Z then
    Raise (mk_exn RequestException
             (string_of_Z code ++ " Client Error: " ++ reason response
              ++ " for url: " ++ url response))
  else if ((500 <=? code) && (code <? 600))%Z then
    Raise (mk_exn RequestException
             (string_of_Z code ++ " Server Error: " ++ reason response
              ++ " for url: " ++ url response))
  else Ok tt.

(** [response.json()]: the decoded body, or [requests]' own decode error,
    which is a [RequestException]. *)
Definition response_json (response : http_response) : result pyval :=
  match json_decode w (text response) with
  | inl v => Ok v
  | inr message => Raise (mk_exn RequestException message)
  end.

End Runtime.

(** Sequencing of expressions that may raise. *)
Definition and_then {A B : Type} (r : result A) (k : A -> result B) : result B :=
  match r with
  | Ok a => k a
  | Raise e => Raise e
  end.

Declare Scope res_scope.
Delimit Scope res_scope with res.
Notation "x <- m ;; k" := (and_then m (fun x => k))
  (at level 100, m at next level, right associativity) : res_scope.

(** ** [agent_logic.py]: the tools *)

Module AgentLogic.

Section Tools.

Variable w : World.

(** [web_search(query)]: no handler around the provider's call. *)
Definition web_search (query : string) : Eff string :=
  print w ("--- Performing Google Search for: " ++ query ++ " ---");;
  let google_api_key := getenv w "GOOGLE_API_KEY" in
  let google_cse_id := getenv w "GOOGLE_CSE_ID" in
  emit (EvGoogleSearch google_api_key google_cse_id query);;
  lift (google_search_run w google_api_key google_cse_id query).

(** [get_current_date(query="")]. *)
Definition get_current_date (query : string) : Eff string :=
  ret ("Today's date is " ++ strftime "%A, %B %d, %Y" (today w) ++ ".").

Definition hotel_offers : string :=
  ": 1. The Grand Hotel (₹8000/night, 4.5 stars), 2. City Inn (₹4500/night, 4.0 stars), 3. Budget Stay (₹2500/night, 3.5 stars).".

(** The [except] clause of [search_hotels]. *)
Definition hotel_error_text (e : exn) : string :=
  "Error processing hotel search: " ++ exn_str e
  ++ ". Please ensure the input is a valid JSON with 'destination', 'check_in_date', and 'check_out_date' keys.".

(** [search_hotels(origin, destination="", check_in_date="", check_out_date="")].
    The three later parameters are rebound from the decoded first one
    before they are read. *)
Definition search_hotels (origin destination check_in_date check_out_date : string)
    : Eff string :=
  try_except
    (input_dict <- lift (json_loads w origin);;
     destination <- lift (py_getitem w input_dict "destination");;
     check_in_date <- lift (py_getitem w input_dict "check_in_date");;
     check_out_date <- lift (py_getitem w input_dict "check_out_date");;
     print w ("--- Searching hotels in " ++ py_str w destination ++ " from "
            ++ py_str w check_in_date ++ " to " ++ py_str w check_out_date ++ " ---");;
     ret ("Found 3 hotels in " ++ py_str w destination ++ hotel_offers))
    (fun e => ret (hotel_error_text e)).

(** The test [not data or not data.get("data") or not data["data"].get("topFlights")],
    with [or] stopping at its first true operand. *)
Definition no_top_flights (data : pyval) : result bool :=
  if negb (truthy data) then Ok true
  else
    (inner <- py_get data "data" PNone;;
     if negb (truthy inner) then Ok true
     else
       (inner' <- py_getitem w data "data";;
        top <- py_get inner' "topFlights" PNone;;
        Ok (negb (truthy top))))%res.

(** One line of the result: the f-string of the loop body, its replacement
    fields evaluated left to right. *)
Definition format_flight (flight : pyval) : result string :=
  (legs <- py_get flight "flights" (PList [PDict []]);;
   first_leg <- py_index0 legs;;
   airline <- py_get first_leg "airline" (PStr "N/A");;
   price <- py_get flight "price" (PStr "N/A");;
   duration <- py_get flight "duration" (PDict []);;
   duration_text <- py_get duration "text" (PStr "N/A");;
   stops <- py_get flight "stops" (PStr "N/A");;
   Ok ("- Airline: " ++ py_str w airline ++ ", "
       ++ "Price: $" ++ py_str w price ++ ", "
       ++ "Duration: " ++ py_str w duration_text ++ ", "
       ++ "Stops: " ++ py_str w stops))%res.

(** The [for] loop: each line is appended to [formatted_flights]; the first
    line that raises ends the loop. *)
Fixpoint format_each (flights : list pyval) (formatted_flights : list string)
    : result (list string) :=
  match flights with
  | [] => Ok formatted_flights
  | flight :: rest =>
      (line <- format_flight flight;;
       format_each rest (formatted_flights ++ [line])%list)%res
  end.

(** The locals [api_url], [querystring] and [headers] of [search_flights]. *)
Definition api_url : string := "https://google-flights2.p.rapidapi.com".

Definition querystring (date_val : pyval) : list (string * pyval) :=
  [("departure_airport_code", PStr "BOM");
   ("arrival_airport_code", PStr "GOI");
   ("date", date_val);
   ("currency", PStr "INR")].

Definition headers : list (string * option string) :=
  [("X-RapidAPI-Key", getenv w "RAPIDAPI_KEY");
   ("X-RapidAPI-Host", Some "google-flights2.p.rapidapi.com")].

(** The lines for [data["data"]["topFlights"][:3]]. *)
Definition format_top_flights (data : pyval) : result (list string) :=
  (inner <- py_getitem w data "data";;
   top <- py_getitem w inner "topFlights";;
   first_three <- py_slice3 top;;
   flights <- py_iter first_three;;
   format_each flights [])%res.

(** What follows the request inside the [try] block, from
    [response.raise_for_status()] to the last [return]; it has no effect
    on the outside. *)
Definition parse_response (origin_city destination_city date_val : pyval)
    (response : http_response) : result string :=
  (_ <- raise_for_status response;;
   data <- response_json w response;;
   absent <- no_top_flights data;;
   if absent then
     Ok ("No flights found from " ++ py_str w origin_city ++ " to "
         ++ py_str w destination_city ++ " on " ++ py_str w date_val ++ ".")
   else
     (formatted_flights <- format_top_flights data;;
      match formatted_flights with
      | [] =>
          Ok ("Could not parse flight information from " ++ py_str w origin_city
              ++ " to " ++ py_str w destination_city ++ ".")
      | _ :: _ =>
          Ok ("Here are the top flight options:" ++ newline
              ++ join newline formatted_flights)
      end))%res.

(** The two [except] clauses of [search_flights], tried in order. *)
Definition flights_error_text (e : exn) : string :=
  if is_request_exception e then "API request failed: " ++ exn_str e
  else
    "An error occurred while searching for flights: " ++ exn_str e
    ++ ". Please ensure the input is a valid JSON and the date is in YYYY-MM-DD format.".

(** [search_flights(origin, destination="", departure_date="")].  The two
    later parameters are never read. *)
Definition search_flights (origin destination departure_date : string) : Eff string :=
  try_except
    (input_dict <- lift (json_loads w origin);;
     origin_city <- lift (py_getitem w input_dict "origin");;
     destination_city <- lift (py_getitem w input_dict "destination");;
     date_val <- lift (py_getitem w input_dict "departure_date");;
     print w ("--- Searching REAL flights from " ++ py_str w origin_city ++ " to "
            ++ py_str w destination_city ++ " for " ++ py_str w date_val ++ " ---");;
     response <- requests_get w api_url headers (querystring date_val);;
     lift (parse_response origin_city destination_city date_val response))
    (fun e => ret (flights_error_text e)).

(** A registered tool: its name and what invoking it with the action input
    does.  The action input is the first positional argument; the other
    parameters keep their defaults. *)
Record Tool := { tool_name : string; tool_invoke : string -> Eff string }.

(** [tools = [web_search, search_hotels, search_flights, get_current_date]]. *)
Definition tools : list Tool :=
  [ {| tool_name := "web_search"; tool_invoke := web_search |};
    {| tool_name := "search_hotels";
       tool_invoke := fun origin => search_hotels origin EmptyString EmptyString EmptyString |};
    {| tool_name := "search_flights";
       tool_invoke := fun origin => search_flights origin EmptyString EmptyString |};
    {| tool_name := "get_current_date"; tool_invoke := get_current_date |} ].

End Tools.

End AgentLogic.
Export AgentLogic.

(** ** [main.py]: the request handler *)

Module Main.

(** [request.notes if request.notes else "None"]. *)
Definition notes_or_none (request : UserRequest) : string :=
  match notes request with
  | Some (String c rest) => String c rest
  | _ => "None"
  end.

(** The task text, line by line as the f-string has it. *)
Definition master_prompt (request : UserRequest) : string :=
  newline
  ++ "    You are an expert travel planner. Your task is to create a detailed itinerary based on the following information:" ++ newline
  ++ "    - Origin: " ++ origin request ++ newline
  ++ "    - Destination: " ++ destination request ++ newline
  ++ "    - Start Date: " ++ start_date request ++ newline
  ++ "    - Trip Duration: " ++ string_of_Z (duration_days request) ++ " days" ++ newline
  ++ newline
  ++ "    User's additional notes: " ++ notes_or_none request ++ newline
  ++ newline
  ++ "    Please perform the following steps:" ++ newline
  ++ "    1. Search for round-trip flights for the given origin, destination, and start date." ++ newline
  ++ "    2. Based on the start date and duration, determine the check-in and check-out dates." ++ newline
  ++ "    3. Search for 3-4 highly-rated hotel options for these dates." ++ newline
  ++ "    4. Search for the top 3-5 points of interest or activities at the destination, keeping the user's notes in mind." ++ newline
  ++ "    5. Synthesize all this information into a complete, day-by-day itinerary." ++ newline
  ++ "    IMPORTANT: Your final response MUST start with the words " ++ dquote ++ "Final Answer:" ++ dquote
  ++ " and should contain ONLY the detailed itinerary that follows. Do not take any more actions after this." ++ newline
  ++ "    " ++ newline
  ++ "    Your final answer must be only the detailed itinerary. It should include daily activities and a summary of the flight and hotel options you found." ++ newline
  ++ "    ".

(** What the response encoder accepts: no float that is NaN or an
    infinity, and no text that UTF-8 cannot encode, at any depth. *)
Fixpoint json_encodable (v : pyval) : bool :=
  match v with
  | PNone => true
  | PBool _ => true
  | PInt _ => true
  | PFloat f => float_is_finite f
  | PStr s => negb (has_surrogate s)
  | PList items => forallb json_encodable items
  | PDict entries =>
      forallb (fun kv => match kv with
                         | (k, x) => negb (has_surrogate k) && json_encodable x
                         end) entries
  end.

Section Handler.

Variable w : World.

(** [trip_planner_agent.invoke(agent_input)]: the call is recorded, the
    world answers. *)
Definition trip_planner_agent_invoke (agent_input : pyval) : Eff pyval :=
  emit (EvAgentInvoke agent_input);;
  lift (agent_invoke w agent_input).

(** [plan_trip(request)]. *)
Definition plan_trip (request : UserRequest) : Eff pyval :=
  let agent_input := PDict [("input", PStr (master_prompt request))] in
  try_except
    (response <- trip_planner_agent_invoke agent_input;;
     output <- lift (py_getitem w response "output");;
     ret (PDict [("plan", output)]))
    (fun e => ret (PDict [("error", PStr ("An error occurred: " ++ exn_str e))])).

(** [read_root()]. *)
Definition read_root : Eff pyval :=
  ret (PDict [("status", PStr "Atlas Agent is running!")]).

(** What the client receives. *)
Record http_reply := { reply_status : Z; reply_body : pyval }.

Definition server_error : http_reply :=
  {| reply_status := 500; reply_body := PStr "Internal Server Error" |}.

(** The web framework turns the value the handler returned into the JSON
    body of a 200 reply.  This step runs after the handler has returned,
    outside its [try]: a value the encoder refuses is a 500 reply. *)
Definition respond (body : pyval) : http_reply :=
  if json_encodable body then {| reply_status := 200; reply_body := body |}
  else server_error.

(** The route [POST /plan-trip] for a request that passed validation: the
    handler runs, then its value is encoded; an exception leaving the
    handler would be a 500 reply. *)
Definition post_plan_trip (request : UserRequest) : Eff http_reply :=
  fun h =>
    match plan_trip request h with
    | (h', Ok body) => (h', Ok (respond body))
    | (h', Raise _) => (h', Ok server_error)
    end.


End Handler.

End Main.
Export Main.

(** ** The reasoning loop *)

Module ReasoningLoop.

(** Modelled from the spec: the reasoning loop, which is the agent
    framework's executor and no file of the repository.  The definitions
    of this module follow section 4.2 of the specification: a completion
    is parsed into a tool call or a final answer; a tool call is looked up,
    run, and its observation appended to the transcript; a final answer
    ends the loop; an undecodable completion is a parse error; running out
    of iterations is an execution-limit error. *)
Inductive completion_shape : Type :=
| ToolCall (action action_input : string)
| FinalAnswer (answer_text : string)
| Unparseable.

Record TraceStep := {
  action : string;
  action_input : string;
  observation : string
}.

Inductive LoopFault : Type :=
| ExecutionLimit
| ParseError (completion : string).

(** What the framework and the model bring: the completion for a task and
    the trace steps so far, the parser of completions, the default
    iteration cap, and the texts of the two error observations. *)
Record Framework := {
  complete : string -> list TraceStep -> string;
  parse : string -> completion_shape;
  default_max_iterations : nat;
  unknown_tool_text : string -> string;
  fault_text : exn -> string
}.

(** The state a run ends in. *)
Record LoopRun := {
  steps : list TraceStep;
  model_calls : nat;
  answer : LoopFault + string
}.

Section Loop.

Variable fw : Framework.
Variable registry : list Tool.

(** Modelled from the spec: step 4 of the algorithm of section 4.2, which
    the agent framework implements and the repository does not.  The named
    tool is looked up; an unknown name is an error observation; a fault of
    the tool is turned into an error observation. *)
Definition observe (name input : string) : Eff string :=
  match find (fun t => String.eqb (tool_name t) name) registry with
  | None => ret (unknown_tool_text fw name)
  | Some t => try_except (tool_invoke t input) (fun e => ret (fault_text fw e))
  end.

(** Modelled from the spec: steps 2 to 6 of the algorithm of section 4.2
    (the framework's executor loop, absent from the repository), with
    [remaining] iterations left before the cap. *)
Fixpoint iterate (remaining : nat) (task : string) (trace : list TraceStep)
    (calls : nat) : Eff LoopRun :=
  match remaining with
  | O => ret {| steps := trace; model_calls := calls; answer := inl ExecutionLimit |}
  | S remaining' =>
      let completion := complete fw task trace in
      match parse fw completion with
      | FinalAnswer answer_text =>
          ret {| steps := trace; model_calls := S calls; answer := inr answer_text |}
      | Unparseable =>
          ret {| steps := trace; model_calls := S calls;
                 answer := inl (ParseError completion) |}
      | ToolCall name input =>
          seen <- observe name input;;
          iterate remaining' task
            (trace ++ [{| action := name; action_input := input; observation := seen |}])%list
            (S calls)
      end
  end.

(** Modelled from the spec: the contract [run(task, tools)] of section 4.2,
    started on the empty transcript. *)
Definition run_loop (max_iterations : nat) (task : string) : Eff LoopRun :=
  iterate max_iterations task [] 0.

End Loop.

(** [create_trip_planner_agent()]: the executor gets the agent, the
    registry [tools] and [verbose=True]; the iteration cap is not passed,
    so it is the framework's default. *)
Definition create_trip_planner_agent (w : World) (fw : Framework) : string -> Eff LoopRun :=
  run_loop fw (tools w) (default_max_iterations fw).

End ReasoningLoop.
Export ReasoningLoop.

(** ** Vocabulary of the properties *)

(** The lines the two tools print before they go on. *)
Definition hotel_log_line (w : World) (place check_in check_out : pyval) : string :=
  "--- Searching hotels in " ++ py_str w place ++ " from " ++ py_str w check_in
  ++ " to " ++ py_str w check_out ++ " ---".

Definition flight_log_line (w : World) (origin_city destination_city date_val : pyval)
    : string :=
  "--- Searching REAL flights from " ++ py_str w origin_city ++ " to "
  ++ py_str w destination_city ++ " for " ++ py_str w date_val ++ " ---".

(** The exception [print] raises for a fault of standard output. *)
Definition fault_exn (fault : string * string) : exn :=
  mk_exn (OtherException (fst fault)) (snd fault).

Definition hotel_keys : list string := ["destination"; "check_in_date"; "check_out_date"].
Definition flight_keys : list string := ["origin"; "destination"; "departure_date"].

(** The argument text is JSON and decodes to an object that has every one
    of [keys]. *)
Definition valid_arguments (w : World) (keys : list string) (source : string) : bool :=
  match json_decode w source with
  | inl (PDict entries) => forallb (fun key => has_key key entries) keys
  | _ => false
  end.

(** The value the decoded argument object holds under [key]. *)
Definition argument_field (w : World) (key source : string) : option pyval :=
  match json_decode w source with
  | inl (PDict entries) => dict_lookup key entries
  | _ => None
  end.

Definition is_ok_status (code : Z) : bool := ((code <? 400) || (600 <=? code))%Z.

(** The provider answered the request for [date_val] with a reply that is
    no 4xx or 5xx and whose body decodes to [data]. *)
Definition provider_returns (w : World) (date_val data : pyval) : Prop :=
  exists response,
    http_get w api_url (headers w) (querystring date_val) = Ok response
    /\ is_ok_status (status_code response) = true
    /\ json_decode w (text response) = inl data.

Definition missing_or_falsy (key : string) (entries : list (string * pyval)) : bool :=
  match dict_lookup key entries with
  | None => true
  | Some v => negb (truthy v)
  end.

(** The decoded body is falsy, or an object without a truthy ["data"], or
    an object whose ["data"] is an object without a truthy ["topFlights"]. *)
Definition lacks_top_flights (data : pyval) : bool :=
  negb (truthy data)
  || match data with
     | PDict entries =>
         missing_or_falsy "data" entries
         || match dict_lookup "data" entries with
            | Some (PDict inner) => missing_or_falsy "topFlights" inner
            | _ => false
            end
     | _ => false
     end.

(** The decoded body holds the list [flights] under [data.topFlights]. *)
Definition top_flights_of (data : pyval) : option (list pyval) :=
  match data with
  | PDict entries =>
      match dict_lookup "data" entries with
      | Some (PDict inner) =>
          match dict_lookup "topFlights" inner with
          | Some (PList flights) => Some flights
          | _ => None
          end
      | _ => None
      end
  | _ => None
  end.

(** An entry the formatter can read: an object whose ["flights"], when
    present, is a list that starts with an object, and whose ["duration"],
    when present, is an object. *)
Definition entry_well_formed (flight : pyval) : bool :=
  match flight with
  | PDict entries =>
      match dict_lookup "flights" entries with
      | None => true
      | Some (PList (PDict _ :: _)) => true
      | Some _ => false
      end
      && match dict_lookup "duration" entries with
         | None => true
         | Some (PDict _) => true
         | Some _ => false
         end
  | _ => false
  end.

(** The value under [key], or ["N/A"] when the key is absent. *)
Definition field_or_na (key : string) (entries : list (string * pyval)) : pyval :=
  match dict_lookup key entries with
  | Some v => v
  | None => PStr "N/A"
  end.

(** The airline of the first leg, and the text of the duration. *)
Definition airline_or_na (entries : list (string * pyval)) : pyval :=
  match dict_lookup "flights" entries with
  | Some (PList (PDict leg :: _)) => field_or_na "airline" leg
  | _ => PStr "N/A"
  end.

Definition duration_text_or_na (entries : list (string * pyval)) : pyval :=
  match dict_lookup "duration" entries with
  | Some (PDict duration) => field_or_na "text" duration
  | _ => PStr "N/A"
  end.

(** The line the specification describes for one entry: airline, price,
    duration text and stops, with ["N/A"] for what is absent. *)
Definition flight_line (w : World) (flight : pyval) : string :=
  match flight with
  | PDict entries =>
      "- Airline: " ++ py_str w (airline_or_na entries)
      ++ ", Price: $" ++ py_str w (field_or_na "price" entries)
      ++ ", Duration: " ++ py_str w (duration_text_or_na entries)
      ++ ", Stops: " ++ py_str w (field_or_na "stops" entries)
  | _ => EmptyString
  end.

Definition no_flights_message (w : World) (origin_city destination_city date_val : pyval)
    : string :=
  "No flights found from " ++ py_str w origin_city ++ " to "
  ++ py_str w destination_city ++ " on " ++ py_str w date_val ++ ".".

(** [Some rest] when [s] is [p ++ rest]. *)
Fixpoint strip_prefix (p s : string) : option string :=
  match p, s with
  | EmptyString, _ => Some s
  | String a p', String b s' => if Ascii.eqb a b then strip_prefix p' s' else None
  | String _ _, EmptyString => None
  end.

Fixpoint strip_one_of (candidates : list string) (s : string) : option string :=
  match candidates with
  | [] => None
  | p :: others =>
      match strip_prefix p s with
      | Some rest => Some rest
      | None => strip_one_of others s
      end
  end.

Fixpoint strip_digits (n : nat) (s : string) : option string :=
  match n, s with
  | O, _ => Some s
  | S n', String c rest => if is_digit c then strip_digits n' rest else None
  | S _, EmptyString => None
  end.

Definition option_bind {A B : Type} (o : option A) (k : A -> option B) : option B :=
  match o with
  | Some a => k a
  | None => None
  end.

(** The pattern ["Today's date is <Weekday>, <Month> <DD>, <YYYY>."]. *)
Definition matches_date_pattern (s : string) : bool :=
  match
    option_bind (strip_prefix "Today's date is " s) (fun s1 =>
    option_bind (strip_one_of day_names s1) (fun s2 =>
    option_bind (strip_prefix ", " s2) (fun s3 =>
    option_bind (strip_one_of month_names s3) (fun s4 =>
    option_bind (strip_prefix " " s4) (fun s5 =>
    option_bind (strip_digits 2 s5) (fun s6 =>
    option_bind (strip_prefix ", " s6) (fun s7 =>
    strip_digits 4 s7)))))))
  with
  | Some rest => String.eqb rest "."
  | None => false
  end.

(** The text a run of [search_flights] returns for the provider's answer:
    the value of the [try] block, or the text of the [except] clause that
    catches what it raised. *)
Definition reply_text (w : World) (origin_city destination_city date_val : pyval)
    (reply : result http_response) : string :=
  match and_then reply (parse_response w origin_city destination_city date_val) with
  | Ok message => message
  | Raise e => flights_error_text e
  end.

(** The decimal rendering of [y] is four digits. *)
Definition four_digit_year (y : Z) : bool :=
  all_digits (string_of_Z y) && (String.length (string_of_Z y) =? 4)%nat.

(** The replies [plan_trip] can produce. *)
Definition plan_body (output : pyval) : pyval := PDict [("plan", output)].
Definition error_body (e : exn) : pyval :=
  PDict [("error", PStr ("An error occurred: " ++ exn_str e))].

(** ** Concrete worlds

    Inputs on which the definitions are evaluated: a decoder that knows a
    handful of JSON documents, a flights provider with a canned reply, a
    search provider that wants its credentials, and an agent. *)

Module Scenarios.

(** The JSON document of a value whose strings need no escaping. *)
Fixpoint json_text (v : pyval) : string :=
  match v with
  | PNone => "null"
  | PBool b => if b then "true" else "false"
  | PInt z => string_of_Z z
  | PFloat f => float_repr f
  | PStr s => dquote ++ s ++ dquote
  | PList items => "[" ++ join ", " (map json_text items) ++ "]"
  | PDict entries =>
      "{" ++ join ", " (map (fun kv => match kv with
                                        | (k, x) => dquote ++ k ++ dquote ++ ": " ++ json_text x
                                        end) entries) ++ "}"
  end.

(** A decoder that decodes the documents of [known] and rejects every
    other text the way [json.loads] rejects a text that is no JSON. *)
Definition decode_known (known : list pyval) (source : string) : pyval + string :=
  match find (fun v => String.eqb (json_text v) source) known with
  | Some v => inl v
  | None => inr "Expecting value: line 1 column 1 (char 0)"
  end.

Definition hotel_args : pyval :=
  PDict [("destination", PStr "Goa"); ("check_in_date", PStr "2025-10-15");
         ("check_out_date", PStr "2025-10-18")].

Definition hotel_args_later : pyval :=
  PDict [("destination", PStr "Goa"); ("check_in_date", PStr "2025-11-01");
         ("check_out_date", PStr "2025-11-05")].

Definition hotel_args_no_dates : pyval :=
  PDict [("destination", PStr "Goa")].

Definition flight_args : pyval :=
  PDict [("origin", PStr "Mumbai"); ("destination", PStr "Goa");
         ("departure_date", PStr "2025-10-15")].

Definition flight_args_delhi : pyval :=
  PDict [("origin", PStr "Delhi"); ("destination", PStr "Jaipur");
         ("departure_date", PStr "2025-10-15")].

Definition flight (airline : string) (price : Z) (duration stops : pyval) : pyval :=
  PDict [("flights", PList [PDict [("airline", PStr airline)]]);
         ("price", PInt price);
         ("duration", PDict [("text", duration)]);
         ("stops", stops)].

Definition four_flights : list pyval :=
  [flight "IndiGo" 52 (PStr "1 hr 15 min") (PInt 0);
   flight "Air India" 61 (PStr "1 hr 20 min") (PInt 0);
   PDict [("price", PInt 75)];
   PInt 7].

Definition body_of (flights : pyval) : pyval :=
  PDict [("status", PBool true); ("data", PDict [("topFlights", flights)])].

Definition body_four_flights : pyval := body_of (PList four_flights).
Definition body_empty : pyval := PDict [].
Definition body_no_top_flights : pyval :=
  PDict [("status", PBool true); ("data", PDict [("otherFlights", PList [])])].
Definition body_data_is_text : pyval :=
  PDict [("status", PBool false); ("data", PStr "no results")].
Definition body_is_list : pyval := PList [PStr "no results"].
Definition body_flight_without_legs : pyval :=
  body_of (PList [PDict [("flights", PList []); ("price", PInt 52)]]).

Definition known_documents : list pyval :=
  [hotel_args; hotel_args_later; hotel_args_no_dates; flight_args; flight_args_delhi;
   body_four_flights; body_empty; body_no_top_flights; body_data_is_text;
   body_is_list; body_flight_without_legs; PList [PInt 1; PInt 2]].

Definition missing_google_key : exn :=
  mk_exn (OtherException "ValidationError")
    "Did not find google_api_key, please add an environment variable `GOOGLE_API_KEY` which contains it, or pass `google_api_key` as a named parameter.".

(** [repr] of the texts of the scenarios: quotes around a text that needs
    no escaping. *)
Definition quoted (s : string) : string := "'" ++ s ++ "'".

Definition scenario_repr (s : string) : string :=
  if has_surrogate (quoted s) then "'\ud800'" else quoted s.

Definition scenario_repr_encodable (s : string) :
    has_surrogate (scenario_repr s) = false :=
  (if has_surrogate (quoted s) as b
      return (has_surrogate (quoted s) = b
              -> has_surrogate (if b then "'\ud800'" else quoted s) = false)
   then fun _ => eq_refl
   else fun H => H) eq_refl.

(** The number of bytes before the first lone surrogate. *)
Fixpoint before_surrogate (s : string) : nat :=
  match s with
  | EmptyString => 0
  | String c rest =>
      if is_surrogate_lead c
         && match rest with
            | String d _ => is_surrogate_next d
            | EmptyString => false
            end
      then 0
      else S (before_surrogate rest)
  end.

(** A standard output that encodes to UTF-8: it takes every line but one
    that holds a lone surrogate (in the scenarios: U+D800 after ASCII
    text). *)
Definition utf8_stdout (line : string) : option (string * string) :=
  if has_surrogate line then
    Some ("UnicodeEncodeError",
          "'utf-8' codec can't encode character '\ud800' in position "
          ++ string_of_Z (Z.of_nat (before_surrogate line))
          ++ ": surrogates not allowed")
  else None.

Definition text_field (key : string) (entries : list (string * pyval)) : option string :=
  match dict_lookup key entries with
  | Some (PStr s) => Some s
  | _ => None
  end.

Definition field_required (key : string) : pyval :=
  PDict [("detail",
          PList [PDict [("type", PStr "missing");
                        ("loc", PList [PStr "body"; PStr key]);
                        ("msg", PStr "Field required")]])].

(** The validation of the bodies of the scenarios: the four required
    fields with their types, and the optional notes. *)
Definition scenario_validate (request_body : pyval) : UserRequest + pyval :=
  match request_body with
  | PDict entries =>
      match text_field "origin" entries, text_field "destination" entries,
            text_field "start_date" entries, dict_lookup "duration_days" entries with
      | Some o, Some d, Some s, Some (PInt n) =>
          inl {| origin := o; destination := d; start_date := s; duration_days := n;
                 notes := text_field "notes" entries |}
      | None, _, _, _ => inr (field_required "origin")
      | _, None, _, _ => inr (field_required "destination")
      | _, _, None, _ => inr (field_required "start_date")
      | _, _, _, _ => inr (field_required "duration_days")
      end
  | _ => inr (field_required "origin")
  end.

(** A world whose flights provider answers every request with [status] and
    the document of [body].  Only the flights credential is configured. *)
Definition world_replying (status : Z) (body : pyval) : World := {|
  getenv := fun name => if String.eqb name "RAPIDAPI_KEY" then Some "rapid-key" else None;
  stdout_fault := utf8_stdout;
  validate_request := scenario_validate;
  today := {| year := 2025; month := 10; day := 15 |};
  json_decode := decode_known known_documents;
  repr_str := scenario_repr;
  repr_str_encodable := scenario_repr_encodable;
  http_get := fun api_url _ _ =>
    Ok {| status_code := status;
          reason := if (status =? 200)%Z then "OK" else "Not Found";
          url := api_url;
          text := json_text body |};
  google_search_run := fun api_key cse_id query =>
    match api_key, cse_id with
    | Some _, Some _ => Ok ("Results for " ++ query)
    | _, _ => Raise missing_google_key
    end;
  agent_invoke := fun agent_input =>
    Ok (PDict [("input", agent_input); ("output", PStr "Day 1: Calangute beach.")])
|}.

Definition demo_world : World := world_replying 200 body_four_flights.

(** The same world with an agent that fails. *)
Definition world_agent_down : World := {|
  getenv := getenv demo_world;
  stdout_fault := stdout_fault demo_world;
  validate_request := validate_request demo_world;
  today := today demo_world;
  json_decode := json_decode demo_world;
  repr_str := repr_str demo_world;
  repr_str_encodable := repr_str_encodable demo_world;
  http_get := http_get demo_world;
  google_search_run := google_search_run demo_world;
  agent_invoke := fun _ =>
    Raise (mk_exn (OtherException "APIConnectionError") "Connection error.")
|}.

Definition demo_request : UserRequest := {|
  origin := "Mumbai";
  destination := "Goa";
  start_date := "2025-10-15";
  duration_days := 3;
  notes := None
|}.

(** A model that asks for the date at every turn, and one whose
    completion is of neither shape. *)
Definition framework_always_date : Framework := {|
  complete := fun _ _ => "Action: get_current_date";
  parse := fun _ => ToolCall "get_current_date" EmptyString;
  default_max_iterations := 15;
  unknown_tool_text := fun name => name ++ " is not a valid tool.";
  fault_text := fun e => "Tool failed: " ++ exn_str e
|}.

Definition framework_rambling : Framework := {|
  complete := fun _ _ => "I think Goa is lovely.";
  parse := fun _ => Unparseable;
  default_max_iterations := 15;
  unknown_tool_text := fun name => name ++ " is not a valid tool.";
  fault_text := fun e => "Tool failed: " ++ exn_str e
|}.

End Scenarios.

(** ** Further vocabulary and worlds *)


Definition is_print (ev : event) : bool :=
  match ev with
  | EvPrint _ => true
  | _ => false
  end.

(** The four openings a result of [search_flights] can have. *)
Definition flights_result_shape (message : string) : bool :=
  prefix "No flights found from " message
  || prefix "Here are the top flight options:" message
  || prefix "API request failed: " message
  || prefix "An error occurred while searching for flights: " message.

Module MoreScenarios.

Import Scenarios.

(** [world] with another flights provider. *)
Definition with_provider (world : World)
    (provider : string -> list (string * option string) -> list (string * pyval)
                -> result http_response) : World := {|
  getenv := getenv world;
  stdout_fault := stdout_fault world;
  validate_request := validate_request world;
  today := today world;
  json_decode := json_decode world;
  repr_str := repr_str world;
  repr_str_encodable := repr_str_encodable world;
  http_get := provider;
  google_search_run := google_search_run world;
  agent_invoke := agent_invoke world
|}.

(** [world] with another agent. *)
Definition with_agent (world : World) (agent : pyval -> result pyval) : World := {|
  getenv := getenv world;
  stdout_fault := stdout_fault world;
  validate_request := validate_request world;
  today := today world;
  json_decode := json_decode world;
  repr_str := repr_str world;
  repr_str_encodable := repr_str_encodable world;
  http_get := http_get world;
  google_search_run := google_search_run world;
  agent_invoke := agent
|}.

(** [world] with [documents] as the texts its decoder knows. *)
Definition with_documents (world : World) (documents : list pyval) : World := {|
  getenv := getenv world;
  stdout_fault := stdout_fault world;
  validate_request := validate_request world;
  today := today world;
  json_decode := decode_known documents;
  repr_str := repr_str world;
  repr_str_encodable := repr_str_encodable world;
  http_get := http_get world;
  google_search_run := google_search_run world;
  agent_invoke := agent_invoke world
|}.

Definition connection_refused : exn :=
  mk_exn RequestException "HTTPSConnectionPool(host='google-flights2.p.rapidapi.com', port=443): Max retries exceeded".

Definition broken_setup : exn :=
  mk_exn (OtherException "RuntimeError") "no event loop".

Definition world_offline : World :=
  with_provider demo_world (fun _ _ _ => Raise connection_refused).

Definition world_broken : World :=
  with_provider demo_world (fun _ _ _ => Raise broken_setup).

Definition body_three_flights : pyval := body_of (PList (firstn 3 four_flights)).

Definition body_stray_entry : pyval :=
  body_of (PList [flight "IndiGo" 52 (PStr "1 hr 15 min") (PInt 0); PStr "sold out"]).

Definition more_documents : list pyval :=
  [flight_args; body_four_flights; body_three_flights; body_stray_entry].

Definition reply_with (body : pyval) : http_response := {|
  status_code := 200;
  reason := "OK";
  url := api_url;
  text := json_text body
|}.

Definition world_two_bodies : World := with_documents demo_world more_documents.


Definition hotel_args_no_check_out : pyval :=
  PDict [("destination", PStr "Goa"); ("check_in_date", PStr "2025-10-15")].

Definition flight_args_no_date : pyval :=
  PDict [("origin", PStr "Mumbai"); ("destination", PStr "Goa")].

Definition world_partial_arguments : World :=
  with_documents demo_world [hotel_args_no_check_out; flight_args_no_date].

Definition world_agent_without_output : World :=
  with_agent demo_world (fun agent_input => Ok (PDict [("input", agent_input)])).

(** The text that is the lone surrogate U+D800, and the JSON document of
    a value in which it is written with its escape. *)
Definition lone_surrogate : string :=
  String "237"%char (String "160"%char (String "128"%char EmptyString)).

Definition escaped (s : string) : string :=
  if String.eqb s lone_surrogate then "\ud800" else s.

Fixpoint json_source (v : pyval) : string :=
  match v with
  | PNone => "null"
  | PBool b => if b then "true" else "false"
  | PInt z => string_of_Z z
  | PFloat f => float_repr f
  | PStr s => dquote ++ escaped s ++ dquote
  | PList items => "[" ++ join ", " (map json_source items) ++ "]"
  | PDict entries =>
      "{" ++ join ", " (map (fun kv => match kv with
                                        | (k, x) => dquote ++ k ++ dquote ++ ": " ++ json_source x
                                        end) entries) ++ "}"
  end.

Definition decode_sources (known : list pyval) (source : string) : pyval + string :=
  match find (fun v => String.eqb (json_source v) source) known with
  | Some v => inl v
  | None => inr "Expecting value: line 1 column 1 (char 0)"
  end.

Definition hotel_args_surrogate_date : pyval :=
  PDict [("destination", PStr "Goa"); ("check_in_date", PStr lone_surrogate);
         ("check_out_date", PStr "2025-10-18")].

Definition flight_args_surrogate_origin : pyval :=
  PDict [("origin", PStr lone_surrogate); ("destination", PStr "Goa");
         ("departure_date", PStr "2025-10-15")].

(** The demo world with a decoder that also knows the two arguments that
    hold the surrogate. *)
Definition world_surrogate : World := {|
  getenv := getenv demo_world;
  stdout_fault := stdout_fault demo_world;
  validate_request := validate_request demo_world;
  today := today demo_world;
  json_decode :=
    decode_sources [hotel_args; hotel_args_surrogate_date; flight_args;
                    flight_args_surrogate_origin; body_four_flights;
                    body_no_top_flights];
  repr_str := repr_str demo_world;
  repr_str_encodable := repr_str_encodable demo_world;
  http_get := http_get demo_world;
  google_search_run := google_search_run demo_world;
  agent_invoke := agent_invoke demo_world
|}.

(** The same world with a standard output that is closed. *)
Definition world_stdout_closed : World := {|
  getenv := getenv demo_world;
  stdout_fault := fun _ => Some ("ValueError", "I/O operation on closed file.");
  validate_request := validate_request demo_world;
  today := today demo_world;
  json_decode := json_decode demo_world;
  repr_str := repr_str demo_world;
  repr_str_encodable := repr_str_encodable demo_world;
  http_get := http_get demo_world;
  google_search_run := google_search_run demo_world;
  agent_invoke := agent_invoke demo_world
|}.






Definition request_with_notes : UserRequest := {|
  origin := "Mumbai";
  destination := "Goa";
  start_date := "2025-10-15";
  duration_days := 3;
  notes := Some "I like history"
|}.

End MoreScenarios.


(** * Properties *)

Import Scenarios MoreScenarios.

(** ** Strings *)

Lemma append_assoc (a b c : string) : (a ++ b) ++ c = a ++ (b ++ c).
Proof. induction a as [|x a IH]; simpl; [reflexivity | now rewrite IH]. Qed.

Lemma append_empty_r (a : string) : a ++ EmptyString = a.
Proof. induction a as [|x a IH]; simpl; [reflexivity | now rewrite IH]. Qed.

Lemma prefix_append (p s : string) : prefix p (p ++ s) = true.
Proof.
  induction p as [|c p IH]; simpl.
  - destruct s; reflexivity.
  - destruct (ascii_dec c c) as [_|ne]; [exact IH | now destruct ne].
Qed.

Lemma contains_of_prefix (needle hay : string) :
  prefix needle hay = true -> contains needle hay = true.
Proof. intros H. destruct hay; simpl in *; rewrite H; reflexivity. Qed.

Lemma contains_skip (needle front hay : string) :
  contains needle hay = true -> contains needle (front ++ hay) = true.
Proof.
  intros H. induction front as [|c front IH]; simpl; [exact H|].
  rewrite IH. apply orb_true_r.
Qed.

Lemma contains_middle (needle front back : string) :
  contains needle (front ++ needle ++ back) = true.
Proof. apply contains_skip, contains_of_prefix, prefix_append. Qed.

Lemma strip_prefix_append (p s : string) : strip_prefix p (p ++ s) = Some s.
Proof.
  induction p as [|c p IH]; simpl.
  - destruct s; reflexivity.
  - rewrite Ascii.eqb_refl. exact IH.
Qed.

Lemma surrogate_after_false_cons (c : ascii) (s : string) :
  surrogate_after false (String c s) = surrogate_after (is_surrogate_lead c) s.
Proof. reflexivity. Qed.

(** ** Computations *)

Lemma bind_ok_inv {A B : Type} (m : Eff A) (k : A -> Eff B) h h' b :
  bind m k h = (h', Ok b) ->
  exists a h1, m h = (h1, Ok a) /\ k a h1 = (h', Ok b).
Proof.
  unfold bind. destruct (m h) as [h1 [a|e]]; intros H; [eauto | discriminate].
Qed.

Lemma and_then_ok_inv {A B : Type} (r : result A) (k : A -> result B) (b : B) :
  and_then r k = Ok b -> exists a, r = Ok a /\ k a = Ok b.
Proof. destruct r as [a|e]; simpl; intros H; [eauto | discriminate]. Qed.

Lemma ret_inv {A : Type} (a b : A) h h' : ret a h = (h', Ok b) -> a = b.
Proof. unfold ret. congruence. Qed.

Lemma lift_inv {A : Type} (r : result A) (b : A) h h' :
  lift r h = (h', Ok b) -> r = Ok b.
Proof. unfold lift. congruence. Qed.

Ltac bind_inv H :=
  let a := fresh "a" in
  let h1 := fresh "h" in
  let H1 := fresh "H" in
  apply bind_ok_inv in H; destruct H as (a & h1 & H1 & H).

Ltac and_then_inv H :=
  let a := fresh "a" in
  let H1 := fresh "H" in
  apply and_then_ok_inv in H; destruct H as (a & H1 & H).

(** A [try] block whose handler returns a text returns a text. *)
Lemma try_except_returns {A : Type} (P : A -> Prop) (body : Eff A)
    (handler : exn -> Eff A) (h : list event) :
  (forall h1 a, body h = (h1, Ok a) -> P a) ->
  (forall e h1, exists h2 a, handler e h1 = (h2, Ok a) /\ P a) ->
  exists h' a, try_except body handler h = (h', Ok a) /\ P a.
Proof.
  intros Hbody Hhandler. unfold try_except.
  destruct (body h) as [h1 [a|e]] eqn:E.
  - exists h1, a. split; [reflexivity | eauto].
  - apply Hhandler.
Qed.

(** ** Decoded arguments *)

Lemma has_key_lookup (key : string) (entries : list (string * pyval)) :
  has_key key entries = true -> exists v, dict_lookup key entries = Some v.
Proof.
  unfold has_key. destruct (dict_lookup key entries) as [v|]; [eauto | discriminate].
Qed.

Lemma valid_hotel_arguments (w : World) (source : string) :
  valid_arguments w hotel_keys source = true ->
  exists entries place check_in check_out,
    json_decode w source = inl (PDict entries)
    /\ dict_lookup "destination" entries = Some place
    /\ dict_lookup "check_in_date" entries = Some check_in
    /\ dict_lookup "check_out_date" entries = Some check_out.
Proof.
  unfold valid_arguments, hotel_keys.
  destruct (json_decode w source) as [v|]; [|discriminate].
  destruct v; try discriminate. simpl.
  rewrite !andb_true_iff. intros (H1 & H2 & H3 & _).
  apply has_key_lookup in H1, H2, H3.
  destruct H1 as [d H1], H2 as [i H2], H3 as [o H3].
  exists entries, d, i, o. auto.
Qed.

Lemma valid_flight_arguments (w : World) (source : string) :
  valid_arguments w flight_keys source = true ->
  exists entries origin_city destination_city date_val,
    json_decode w source = inl (PDict entries)
    /\ dict_lookup "origin" entries = Some origin_city
    /\ dict_lookup "destination" entries = Some destination_city
    /\ dict_lookup "departure_date" entries = Some date_val.
Proof.
  unfold valid_arguments, flight_keys.
  destruct (json_decode w source) as [v|]; [|discriminate].
  destruct v; try discriminate. simpl.
  rewrite !andb_true_iff. intros (H1 & H2 & H3 & _).
  apply has_key_lookup in H1, H2, H3.
  destruct H1 as [o H1], H2 as [d H2], H3 as [dt H3].
  exists entries, o, d, dt. auto.
Qed.

Lemma argument_field_decoded (w : World) (key source : string) (v : pyval) :
  argument_field w key source = Some v ->
  exists entries, json_decode w source = inl (PDict entries) /\ dict_lookup key entries = Some v.
Proof.
  unfold argument_field. destruct (json_decode w source) as [[]|]; try discriminate.
  eauto.
Qed.

(** ** [search_hotels] *)

(** A run on well-formed arguments: the log line is printed and the offers
    are returned, or standard output refuses the line and the [except]
    clause reports that. *)
Lemma search_hotels_run (w : World) (source d i c : string) (h : list event)
    (entries : list (string * pyval)) (place check_in check_out : pyval) :
  json_decode w source = inl (PDict entries) ->
  dict_lookup "destination" entries = Some place ->
  dict_lookup "check_in_date" entries = Some check_in ->
  dict_lookup "check_out_date" entries = Some check_out ->
  search_hotels w source d i c h
  = match stdout_fault w (hotel_log_line w place check_in check_out) with
    | None =>
        ((h ++ [EvPrint (hotel_log_line w place check_in check_out)])%list,
         Ok ("Found 3 hotels in " ++ py_str w place ++ hotel_offers))
    | Some fault => (h, Ok (hotel_error_text (fault_exn fault)))
    end.
Proof.
  intros Hj Hd Hi Ho.
  unfold search_hotels, try_except, bind, lift, json_loads, py_getitem, print,
    hotel_log_line.
  rewrite Hj, Hd, Hi, Ho.
  destruct (stdout_fault w _) as [[class_name message]|]; reflexivity.
Qed.

Lemma search_hotels_malformed (w : World) (source d i c : string) (h : list event) :
  valid_arguments w hotel_keys source = false ->
  exists e, search_hotels w source d i c h = (h, Ok (hotel_error_text e)).
Proof.
  unfold valid_arguments, hotel_keys, search_hotels, try_except, bind, lift, json_loads,
    py_getitem, has_key.
  destruct (json_decode w source) as [v|message]; [|eexists; reflexivity].
  destruct v; try (intros _; eexists; reflexivity).
  simpl.
  destruct (dict_lookup "destination" entries); [|intros _; eexists; reflexivity].
  destruct (dict_lookup "check_in_date" entries); [|intros _; eexists; reflexivity].
  destruct (dict_lookup "check_out_date" entries); [discriminate|].
  intros _. eexists. reflexivity.
Qed.

Lemma search_hotels_returns (w : World) (o d i c : string) (h : list event) :
  exists h' message,
    search_hotels w o d i c h = (h', Ok message) /\ String.eqb message EmptyString = false.
Proof.
  unfold search_hotels. apply try_except_returns.
  - intros h1 a H. do 5 bind_inv H. apply ret_inv in H. subst a. reflexivity.
  - intros e h1. eexists _, _. split; reflexivity.
Qed.

(** ** [search_flights] *)

Lemma format_each_length (w : World) (flights : list pyval) :
  forall acc lines,
    format_each w flights acc = Ok lines ->
    List.length lines = (List.length acc + List.length flights)%nat.
Proof.
  induction flights as [|flight rest IH]; simpl; intros acc lines H.
  - injection H as <-. lia.
  - and_then_inv H. apply IH in H. rewrite H, length_app. simpl. lia.
Qed.

Lemma no_top_flights_false (w : World) (data : pyval) :
  no_top_flights w data = Ok false ->
  exists entries inner top,
    data = PDict entries
    /\ dict_lookup "data" entries = Some (PDict inner)
    /\ dict_lookup "topFlights" inner = Some top
    /\ truthy top = true.
Proof.
  unfold no_top_flights.
  destruct (truthy data); simpl; [|discriminate].
  destruct data; simpl; try discriminate.
  destruct (dict_lookup "data" entries) as [inner|] eqn:E; simpl; [|discriminate].
  destruct (truthy inner); simpl; [|discriminate].
  destruct inner as [| | | | |?|inner]; simpl; try discriminate.
  destruct (dict_lookup "topFlights" inner) as [top|] eqn:E'; simpl; [|discriminate].
  destruct (truthy top) eqn:T; simpl; [|discriminate].
  intros _. eauto 10.
Qed.

(** The branch [if not formatted_flights] is never taken: a truthy
    [topFlights] that the loop gets through leaves at least one line. *)
Lemma format_top_flights_nonempty (w : World) (data : pyval) (lines : list string) :
  no_top_flights w data = Ok false ->
  format_top_flights w data = Ok lines ->
  exists line others, lines = line :: others.
Proof.
  intros Hn Hf.
  destruct (no_top_flights_false w data Hn) as (entries & inner & top & -> & Hd & Ht & Htruthy).
  unfold format_top_flights in Hf. simpl in Hf. rewrite Hd in Hf. simpl in Hf.
  rewrite Ht in Hf. simpl in Hf.
  destruct top; simpl in *; try discriminate.
  - destruct s as [|c s]; [discriminate|]. simpl in Hf. discriminate.
  - destruct items as [|x items]; [discriminate|].
    apply format_each_length in Hf. simpl in Hf.
    destruct lines; [simpl in Hf; lia | eauto].
Qed.

Lemma parse_response_nonempty (w : World) (o d dt : pyval) (r : http_response) (s : string) :
  parse_response w o d dt r = Ok s -> String.eqb s EmptyString = false.
Proof.
  unfold parse_response. intros H. do 3 and_then_inv H.
  match type of H with (if ?b then _ else _) = _ => destruct b end.
  - injection H as <-. reflexivity.
  - and_then_inv H.
    match type of H with match ?l with [] => _ | _ :: _ => _ end = _ => destruct l end;
      injection H as <-; reflexivity.
Qed.

(** The origin and the destination reach the result through the text of
    the "no flights" message only. *)
Lemma parse_response_route_independent (w : World) (o1 d1 o2 d2 dt : pyval)
    (r : http_response) :
  parse_response w o1 d1 dt r = parse_response w o2 d2 dt r
  \/ (parse_response w o1 d1 dt r = Ok (no_flights_message w o1 d1 dt)
      /\ parse_response w o2 d2 dt r = Ok (no_flights_message w o2 d2 dt)).
Proof.
  unfold parse_response.
  destruct (raise_for_status r); simpl; [|left; reflexivity].
  destruct (response_json w r) as [data|]; simpl; [|left; reflexivity].
  destruct (no_top_flights w data) as [[|]|] eqn:Hn; simpl;
    [right; split; reflexivity| |left; reflexivity].
  destruct (format_top_flights w data) as [lines|] eqn:Hf; simpl; [|left; reflexivity].
  destruct (format_top_flights_nonempty w data lines Hn Hf) as (line & others & ->).
  left. reflexivity.
Qed.

Lemma reply_text_route_independent (w : World) (o1 d1 o2 d2 dt : pyval)
    (reply : result http_response) :
  reply_text w o1 d1 dt reply = reply_text w o2 d2 dt reply
  \/ (reply_text w o1 d1 dt reply = no_flights_message w o1 d1 dt
      /\ reply_text w o2 d2 dt reply = no_flights_message w o2 d2 dt).
Proof.
  unfold reply_text. destruct reply as [r|e]; simpl; [|left; reflexivity].
  destruct (parse_response_route_independent w o1 d1 o2 d2 dt r) as [E|[E1 E2]].
  - left. rewrite E. reflexivity.
  - right. rewrite E1, E2. split; reflexivity.
Qed.

(** A run on well-formed arguments: one line printed, one request sent,
    and the text for the provider's answer returned; or standard output
    refuses the line, nothing is sent, and the generic [except] clause
    reports that. *)
Lemma search_flights_run (w : World) (source dst dep : string) (h : list event)
    (entries : list (string * pyval)) (o d dt : pyval) :
  json_decode w source = inl (PDict entries) ->
  dict_lookup "origin" entries = Some o ->
  dict_lookup "destination" entries = Some d ->
  dict_lookup "departure_date" entries = Some dt ->
  search_flights w source dst dep h
  = match stdout_fault w (flight_log_line w o d dt) with
    | None =>
        (((h ++ [EvPrint (flight_log_line w o d dt)])
            ++ [EvHttpGet api_url (headers w) (querystring dt)])%list,
         Ok (reply_text w o d dt (http_get w api_url (headers w) (querystring dt))))
    | Some fault => (h, Ok (flights_error_text (fault_exn fault)))
    end.
Proof.
  intros Hj Ho Hd Hdt.
  unfold search_flights, try_except, bind, lift, json_loads, py_getitem, print,
    requests_get, reply_text, ret, flight_log_line.
  rewrite Hj, Ho, Hd, Hdt. unfold bind, lift.
  destruct (stdout_fault w _) as [[class_name message]|]; [reflexivity|].
  unfold emit.
  destruct (http_get w api_url (headers w) (querystring dt)) as [r|e]; simpl.
  - destruct (parse_response w o d dt r); reflexivity.
  - reflexivity.
Qed.

Lemma search_flights_malformed (w : World) (source dst dep : string) (h : list event) :
  valid_arguments w flight_keys source = false ->
  exists e,
    is_request_exception e = false
    /\ search_flights w source dst dep h = (h, Ok (flights_error_text e)).
Proof.
  unfold valid_arguments, flight_keys, search_flights, try_except, bind, lift, json_loads,
    py_getitem, has_key.
  destruct (json_decode w source) as [v|message];
    [|eexists; split; [|reflexivity]; reflexivity].
  destruct v; try (intros _; eexists; split; [|reflexivity]; reflexivity).
  simpl.
  destruct (dict_lookup "origin" entries);
    [|intros _; eexists; split; [|reflexivity]; reflexivity].
  destruct (dict_lookup "destination" entries);
    [|intros _; eexists; split; [|reflexivity]; reflexivity].
  destruct (dict_lookup "departure_date" entries); [discriminate|].
  intros _. eexists; split; [|reflexivity]; reflexivity.
Qed.

Lemma flights_error_text_nonempty (e : exn) :
  String.eqb (flights_error_text e) EmptyString = false.
Proof. unfold flights_error_text. destruct (is_request_exception e); reflexivity. Qed.

Lemma search_flights_returns (w : World) (o d c : string) (h : list event) :
  exists h' message,
    search_flights w o d c h = (h', Ok message) /\ String.eqb message EmptyString = false.
Proof.
  unfold search_flights. apply try_except_returns.
  - intros h1 a H. do 6 bind_inv H. apply lift_inv in H.
    eapply parse_response_nonempty. exact H.
  - intros e h1. eexists _, _. split; [reflexivity | apply flights_error_text_nonempty].
Qed.

Lemma no_top_flights_lacks (w : World) (data : pyval) :
  lacks_top_flights data = true -> no_top_flights w data = Ok true.
Proof.
  unfold lacks_top_flights, no_top_flights, missing_or_falsy.
  destruct (truthy data) eqn:T; simpl; [|reflexivity].
  destruct data; simpl; try discriminate.
  destruct (dict_lookup "data" entries) as [inner|]; simpl; [|reflexivity].
  destruct (truthy inner) eqn:Ti; simpl; [|reflexivity].
  destruct inner as [| | | | |?|inner]; simpl; try discriminate.
  destruct (dict_lookup "topFlights" inner) as [top|]; simpl; [|reflexivity].
  intros ->. reflexivity.
Qed.

Lemma raise_for_status_ok (r : http_response) :
  is_ok_status (status_code r) = true -> raise_for_status r = Ok tt.
Proof.
  unfold is_ok_status, raise_for_status. intros H.
  apply orb_true_iff in H.
  destruct (400 <=? status_code r)%Z eqn:E1, (status_code r <? 500)%Z eqn:E2,
    (500 <=? status_code r)%Z eqn:E3, (status_code r <? 600)%Z eqn:E4; simpl; try reflexivity;
    exfalso; destruct H as [H|H]; lia.
Qed.

Lemma format_flight_well_formed (w : World) (flight : pyval) :
  entry_well_formed flight = true -> format_flight w flight = Ok (flight_line w flight).
Proof.
  unfold entry_well_formed, format_flight, flight_line, airline_or_na,
    duration_text_or_na, field_or_na.
  destruct flight as [| | | | | |entries]; try discriminate. simpl.
  destruct (dict_lookup "flights" entries) as [[| | | | |[|[] ?]|]|];
    simpl; try discriminate;
    destruct (dict_lookup "duration" entries) as [[]|]; simpl; try discriminate;
    intros _; reflexivity.
Qed.

Lemma format_each_well_formed (w : World) (flights : list pyval) :
  forall acc,
    forallb entry_well_formed flights = true ->
    format_each w flights acc = Ok (acc ++ map (flight_line w) flights)%list.
Proof.
  induction flights as [|flight rest IH]; simpl; intros acc H.
  - rewrite app_nil_r. reflexivity.
  - apply andb_true_iff in H as [Hf Hr].
    rewrite (format_flight_well_formed w flight Hf). simpl.
    rewrite IH by exact Hr. rewrite <- app_assoc. reflexivity.
Qed.

(** ** Dates *)

Lemma strftime_pattern (d : date) :
  strftime "%A, %B %d, %Y" d
  = day_name d ++ ", " ++ month_name d ++ " " ++ two_digits (day d) ++ ", "
    ++ string_of_Z (year d).
Proof.
  cbn [strftime directive Ascii.eqb Bool.eqb].
  rewrite append_empty_r. reflexivity.
Qed.

Lemma weekday_range (d : date) : (0 <= weekday d < 7)%Z.
Proof. unfold weekday. apply Z.mod_pos_bound. lia. Qed.

Lemma strip_day_name (d : date) (rest : string) :
  strip_one_of day_names (day_name d ++ rest) = Some rest.
Proof.
  unfold day_name. pose proof (weekday_range d) as Hr.
  assert (Hi : (Z.to_nat (weekday d) < 7)%nat) by lia.
  revert Hi. generalize (Z.to_nat (weekday d)) as i. intros i Hi.
  do 7 (destruct i as [|i]; [reflexivity|]). lia.
Qed.

Lemma strip_month_name (d : date) (rest : string) :
  (1 <= month d <= 12)%Z ->
  strip_one_of month_names (month_name d ++ rest) = Some rest.
Proof.
  unfold month_name. intros Hm.
  assert (Hi : (Z.to_nat (month d - 1) < 12)%nat) by lia.
  revert Hi. generalize (Z.to_nat (month d - 1)) as i. intros i Hi.
  do 12 (destruct i as [|i]; [reflexivity|]). lia.
Qed.

Lemma day_name_listed (d : date) : In (day_name d) day_names.
Proof.
  unfold day_name. apply nth_In. pose proof (weekday_range d). simpl. lia.
Qed.

Lemma month_name_listed (d : date) :
  (1 <= month d <= 12)%Z -> In (month_name d) month_names.
Proof. intros H. unfold month_name. apply nth_In. simpl. lia. Qed.

Lemma is_digit_digit_char (k : Z) : (0 <= k <= 9)%Z -> is_digit (digit_char k) = true.
Proof.
  intros H. unfold digit_char.
  assert (Hi : (Z.to_nat k < 10)%nat) by lia.
  revert Hi. generalize (Z.to_nat k) as i. intros i Hi.
  do 10 (destruct i as [|i]; [reflexivity|]). lia.
Qed.

Lemma two_digits_are_digits (n : Z) :
  (0 <= n <= 99)%Z -> all_digits (two_digits n) = true.
Proof.
  intros H. unfold two_digits. cbn [all_digits].
  rewrite (is_digit_digit_char (n / 10)), (is_digit_digit_char (n mod 10)).
  - reflexivity.
  - pose proof (Z.mod_pos_bound n 10). lia.
  - assert (n / 10 < 10)%Z by (apply Z.div_lt_upper_bound; lia).
    assert (0 <= n / 10)%Z by (apply Z.div_pos; lia). lia.
Qed.

Lemma strip_all_digits (n : nat) (s rest : string) :
  all_digits s = true -> String.length s = n -> strip_digits n (s ++ rest) = Some rest.
Proof.
  intros Hd Hn. subst n. induction s as [|c s IH]; simpl.
  - destruct rest; reflexivity.
  - simpl in Hd. apply andb_true_iff in Hd as [Hc Hs]. rewrite Hc. auto.
Qed.

Lemma years_have_four_digits :
  forallb (fun n => four_digit_year (1000 + Z.of_nat n)) (seq 0 (Z.to_nat 9000)) = true.
Proof. vm_compute. reflexivity. Qed.

Lemma year_four_digits (y : Z) :
  (1000 <= y <= 9999)%Z ->
  all_digits (string_of_Z y) = true /\ String.length (string_of_Z y) = 4%nat.
Proof.
  intros H.
  pose proof (proj1 (forallb_forall _ _) years_have_four_digits (Z.to_nat (y - 1000))) as Hy.
  cbv beta in Hy.
  replace (1000 + Z.of_nat (Z.to_nat (y - 1000)))%Z with y in Hy by lia.
  assert (Hin : In (Z.to_nat (y - 1000)) (seq 0 (Z.to_nat 9000))) by (apply in_seq; lia).
  apply Hy in Hin. unfold four_digit_year in Hin.
  apply andb_true_iff in Hin as [Ha Hl].
  split; [exact Ha | now apply Nat.eqb_eq].
Qed.

Lemma valid_day_range (d : date) : valid_date d -> (1 <= day d <= 31)%Z.
Proof.
  intros (_ & _ & Hd). unfold days_in_month in Hd.
  destruct (month d =? 2)%Z; [destruct (is_leap _)|];
    [| |destruct (_ || _ || _ || _)%bool]; lia.
Qed.

(** ** The reasoning loop *)

Lemma observe_returns (fw : Framework) (registry : list Tool) (name input : string)
    (h : list event) :
  exists h' seen, observe fw registry name input h = (h', Ok seen).
Proof.
  unfold observe.
  destruct (find _ registry) as [t|].
  - destruct (try_except_returns (fun _ => True) (tool_invoke t input)
                (fun e => ret (fault_text fw e)) h) as (h' & seen & E & _).
    + trivial.
    + intros e h1. eexists _, _. split; [reflexivity | trivial].
    + eauto.
  - eexists _, _. reflexivity.
Qed.

(** A run in which no completion is a final answer.  Every step it
    records comes from a completion that was a tool call, made on the
    transcript as it stood then; the run ends when its iterations are used
    up, or at the first completion of neither shape, which is the one made
    on the final transcript. *)
Lemma iterate_never_final (fw : Framework) (registry : list Tool) (task : string) :
  (forall trace text, parse fw (complete fw task trace) <> FinalAnswer text) ->
  forall remaining trace calls h,
  exists h' r added,
    iterate fw registry remaining task trace calls h = (h', Ok r)
    /\ steps r = (trace ++ added)%list
    /\ (forall k, (k < List.length added)%nat ->
        exists name input seen,
          parse fw (complete fw task (trace ++ firstn k added)%list) = ToolCall name input
          /\ nth_error added k
             = Some {| action := name; action_input := input; observation := seen |})
    /\ ((answer r = inl ExecutionLimit
         /\ List.length added = remaining
         /\ model_calls r = (calls + remaining)%nat)
        \/ (answer r = inl (ParseError (complete fw task (steps r)))
            /\ parse fw (complete fw task (steps r)) = Unparseable
            /\ (List.length added < remaining)%nat
            /\ model_calls r = (calls + List.length added + 1)%nat)).
Proof.
  intros Hnever. induction remaining as [|remaining IH]; intros trace calls h.
  - exists h, {| steps := trace; model_calls := calls; answer := inl ExecutionLimit |}, [].
    split; [reflexivity|]. split; [simpl; now rewrite app_nil_r|].
    split; [intros k Hk; simpl in Hk; lia|].
    left. simpl. repeat split; lia.
  - simpl. destruct (parse fw (complete fw task trace)) as [name input|text|] eqn:E.
    + destruct (observe_returns fw registry name input h) as (h1 & seen & Ho).
      unfold bind. rewrite Ho.
      destruct (IH (trace ++ [{| action := name; action_input := input;
                                 observation := seen |}])%list (S calls) h1)
        as (h' & r & added & Hr & Hsteps & Hprefix & Hcase).
      exists h', r,
        ({| action := name; action_input := input; observation := seen |} :: added).
      split; [exact Hr|].
      split; [rewrite Hsteps, <- app_assoc; reflexivity|].
      split.
      * intros [|k] Hk.
        -- exists name, input, seen. simpl. rewrite app_nil_r. split; [exact E|reflexivity].
        -- simpl in Hk. destruct (Hprefix k) as (n' & i' & s' & Hp & Hn); [lia|].
           exists n', i', s'. simpl. split; [|exact Hn].
           rewrite <- Hp. f_equal. f_equal. rewrite <- app_assoc. reflexivity.
      * destruct Hcase as [(Ha & Hl & Hc)|(Ha & Hp & Hl & Hc)].
        -- left. simpl. repeat split; [exact Ha|lia|lia].
        -- right. simpl. repeat split; [exact Ha|exact Hp|lia|lia].
    + exfalso. exact (Hnever trace text E).
    + exists h, {| steps := trace; model_calls := S calls;
                   answer := inl (ParseError (complete fw task trace)) |}, [].
      split; [reflexivity|]. split; [simpl; now rewrite app_nil_r|].
      split; [intros k Hk; simpl in Hk; lia|].
      right. simpl. repeat split; [exact E|lia|lia].
Qed.

(** * The claims *)

(** ** C1 *)

(** C1 (counterexample).  In a world without Google credentials the
    provider's wrapper raises, and [web_search], which is in the registry,
    lets that exception through to its caller. *)
Lemma web_search_propagates_provider_exception :
  exists t,
    In t (tools demo_world)
    /\ tool_name t = "web_search"
    /\ outcome (tool_invoke t "best beaches in Goa") = Raise missing_google_key.
Proof.
  exists {| tool_name := "web_search"; tool_invoke := web_search demo_world |}.
  split; [left; reflexivity | split; reflexivity].
Qed.

(** C1 (amended).  Invoked from any history with any argument,
    [search_hotels], [search_flights] and [get_current_date] return a
    non-empty text and never raise; [web_search] has no handler: when its
    log line is printed it ends exactly as the search provider's call
    ends, with its text or with the exception it raised, and when standard
    output refuses the line it raises that fault. *)
Theorem tools_turn_failures_into_text (w : World) (t : Tool) (argument : string)
    (h : list event) :
  In t (tools w) ->
  if String.eqb (tool_name t) "web_search" then
    match stdout_fault w ("--- Performing Google Search for: " ++ argument ++ " ---") with
    | None =>
        exists h',
          tool_invoke t argument h
          = (h', google_search_run w (getenv w "GOOGLE_API_KEY")
                   (getenv w "GOOGLE_CSE_ID") argument)
    | Some fault => tool_invoke t argument h = (h, Raise (fault_exn fault))
    end
  else
    exists h' message,
      tool_invoke t argument h = (h', Ok message)
      /\ String.eqb message EmptyString = false.
Proof.
  intros Hin. simpl in Hin.
  destruct Hin as [<-|[<-|[<-|[<-|[]]]]]; simpl.
  - unfold web_search, bind, print, emit, lift.
    destruct (stdout_fault w _) as [[class_name message]|]; [reflexivity|].
    simpl. eexists. reflexivity.
  - apply search_hotels_returns.
  - apply search_flights_returns.
  - eexists _, _. split; reflexivity.
Qed.

Lemma tools_turn_failures_into_text_witness :
  In {| tool_name := "search_flights";
        tool_invoke := fun origin =>
          search_flights demo_world origin EmptyString EmptyString |}
     (tools demo_world)
  /\ exists h' message,
       search_flights demo_world "not json" EmptyString EmptyString [] = (h', Ok message)
       /\ String.eqb message EmptyString = false.
Proof.
  assert (Hin : In {| tool_name := "search_flights";
                      tool_invoke := fun origin =>
                        search_flights demo_world origin EmptyString EmptyString |}
                   (tools demo_world))
    by (right; right; left; reflexivity).
  split; [exact Hin|].
  exact (tools_turn_failures_into_text demo_world _ "not json" [] Hin).
Defined.

(** ** C2 *)

Lemma plan_trip_run (w : World) (request : UserRequest) (h : list event) :
  plan_trip w request h
  = ((h ++ [EvAgentInvoke (PDict [("input", PStr (master_prompt request))])])%list,
     Ok match agent_invoke w (PDict [("input", PStr (master_prompt request))]) with
        | Raise e => error_body e
        | Ok response =>
            match py_getitem w response "output" with
            | Ok output => plan_body output
            | Raise e => error_body e
            end
        end).
Proof.
  cbv beta zeta delta [plan_trip try_except bind trip_planner_agent_invoke emit lift ret].
  destruct (agent_invoke w (PDict [("input", PStr (master_prompt request))]))
    as [response|e]; [|reflexivity].
  cbv beta iota.
  destruct (py_getitem w response "output") as [output|e]; reflexivity.
Qed.



(** ** C3 *)

(** C3.  When the argument is no JSON, or decodes to something that is not
    an object holding the three required keys, each of the two tools
    returns its error text without raising, and without printing or
    sending anything: [search_hotels] a text that starts "Error processing
    hotel search", [search_flights] a text that starts "An error occurred
    while searching for flights". *)
Theorem malformed_arguments_are_reported (w : World)
    (source destination check_in_date check_out_date departure_date : string) :
  (valid_arguments w hotel_keys source = false ->
   exists e message,
     run (search_hotels w source destination check_in_date check_out_date)
     = ([], Ok message)
     /\ message = "Error processing hotel search: " ++ exn_str e
          ++ ". Please ensure the input is a valid JSON with 'destination', 'check_in_date', and 'check_out_date' keys."
     /\ contains "Error" message = true)
  /\ (valid_arguments w flight_keys source = false ->
      exists e message,
        run (search_flights w source destination departure_date) = ([], Ok message)
        /\ message = "An error occurred while searching for flights: " ++ exn_str e
             ++ ". Please ensure the input is a valid JSON and the date is in YYYY-MM-DD format."
        /\ contains "error" message = true).
Proof.
  split; intros Hbad.
  - destruct (search_hotels_malformed w source destination check_in_date check_out_date
                [] Hbad) as (e & He).
    exists e. eexists. split; [exact He|]. split; reflexivity.
  - destruct (search_flights_malformed w source destination departure_date [] Hbad)
      as (e & Hreq & He).
    exists e. eexists. split; [exact He|].
    unfold flights_error_text. rewrite Hreq. split; reflexivity.
Qed.

Lemma malformed_arguments_are_reported_witness :
  valid_arguments demo_world hotel_keys (json_text hotel_args_no_dates) = false
  /\ valid_arguments demo_world flight_keys "not json" = false
  /\ (exists e message,
        run (search_hotels demo_world (json_text hotel_args_no_dates)
               EmptyString EmptyString EmptyString) = ([], Ok message)
        /\ message = "Error processing hotel search: " ++ exn_str e
             ++ ". Please ensure the input is a valid JSON with 'destination', 'check_in_date', and 'check_out_date' keys."
        /\ contains "Error" message = true)
  /\ (exists e message,
        run (search_flights demo_world "not json" EmptyString EmptyString)
        = ([], Ok message)
        /\ message = "An error occurred while searching for flights: " ++ exn_str e
             ++ ". Please ensure the input is a valid JSON and the date is in YYYY-MM-DD format."
        /\ contains "error" message = true).
Proof.
  assert (H1 : valid_arguments demo_world hotel_keys (json_text hotel_args_no_dates) = false)
    by (vm_compute; reflexivity).
  assert (H2 : valid_arguments demo_world flight_keys "not json" = false)
    by (vm_compute; reflexivity).
  split; [exact H1 | split; [exact H2 | split]].
  - exact (proj1 (malformed_arguments_are_reported demo_world
                    (json_text hotel_args_no_dates)
                    EmptyString EmptyString EmptyString EmptyString) H1).
  - exact (proj2 (malformed_arguments_are_reported demo_world "not json"
                    EmptyString EmptyString EmptyString EmptyString) H2).
Defined.

(** ** C4 *)

(** C4 (counterexample).  The argument is JSON and holds the three keys,
    but its check-in date decodes to a lone surrogate.  [print], which is
    inside the [try], cannot encode the log line, and the result is the
    error text, not the list of offers. *)
Lemma unprintable_date_fails_hotel_search :
  valid_arguments world_surrogate hotel_keys (json_source hotel_args_surrogate_date) = true
  /\ contains "\ud800" (json_source hotel_args_surrogate_date) = true
  /\ run (search_hotels world_surrogate (json_source hotel_args_surrogate_date)
            EmptyString EmptyString EmptyString)
     = ([], Ok "Error processing hotel search: 'utf-8' codec can't encode character '\ud800' in position 33: surrogates not allowed. Please ensure the input is a valid JSON with 'destination', 'check_in_date', and 'check_out_date' keys.").
Proof. vm_compute. repeat split; reflexivity. Qed.

(** C4 (amended).  When the argument decodes to an object that holds the
    three keys and standard output takes the log line, [search_hotels]
    returns the non-empty text "Found 3 hotels in <destination>" followed
    by the fixed list of three mock offers. *)
Theorem search_hotels_lists_offers (w : World)
    (source destination check_in_date check_out_date : string)
    (place check_in check_out : pyval) :
  argument_field w "destination" source = Some place ->
  argument_field w "check_in_date" source = Some check_in ->
  argument_field w "check_out_date" source = Some check_out ->
  stdout_fault w (hotel_log_line w place check_in check_out) = None ->
  exists message,
    outcome (search_hotels w source destination check_in_date check_out_date)
    = Ok message
    /\ message = "Found 3 hotels in " ++ py_str w place
         ++ ": 1. The Grand Hotel (₹8000/night, 4.5 stars), 2. City Inn (₹4500/night, 4.0 stars), 3. Budget Stay (₹2500/night, 3.5 stars)."
    /\ String.eqb message EmptyString = false.
Proof.
  intros Hd Hi Ho Hprint.
  destruct (argument_field_decoded w _ _ _ Hd) as (entries & Hj & Hd').
  unfold argument_field in Hi, Ho. rewrite Hj in Hi, Ho.
  eexists. split; [|split; reflexivity].
  unfold outcome, run.
  rewrite (search_hotels_run w source _ _ _ [] entries _ _ _ Hj Hd' Hi Ho), Hprint.
  reflexivity.
Qed.

Lemma search_hotels_lists_offers_witness :
  stdout_fault demo_world
    (hotel_log_line demo_world (PStr "Goa") (PStr "2025-10-15") (PStr "2025-10-18")) = None
  /\ exists message,
       outcome (search_hotels demo_world (json_text hotel_args)
                  EmptyString EmptyString EmptyString) = Ok message
       /\ message = "Found 3 hotels in " ++ py_str demo_world (PStr "Goa")
            ++ ": 1. The Grand Hotel (₹8000/night, 4.5 stars), 2. City Inn (₹4500/night, 4.0 stars), 3. Budget Stay (₹2500/night, 3.5 stars)."
       /\ String.eqb message EmptyString = false.
Proof.
  assert (Hprint : stdout_fault demo_world
            (hotel_log_line demo_world (PStr "Goa") (PStr "2025-10-15")
               (PStr "2025-10-18")) = None) by (vm_compute; reflexivity).
  split; [exact Hprint|].
  exact (search_hotels_lists_offers demo_world (json_text hotel_args)
           EmptyString EmptyString EmptyString
           (PStr "Goa") (PStr "2025-10-15") (PStr "2025-10-18")
           eq_refl eq_refl eq_refl Hprint).
Defined.

(** ** C5 *)

(** C5 (counterexample).  A reply whose ["data"] is a text holds no
    ["topFlights"], yet the result is the generic error text; and a 404
    reply with the empty object as body is reported as a failed request.
    Neither is the "No flights found" message. *)
Lemma no_flights_message_not_for_every_shape :
  top_flights_of body_data_is_text = None
  /\ outcome (search_flights (world_replying 200 body_data_is_text)
                (json_text flight_args) EmptyString EmptyString)
     = Ok "An error occurred while searching for flights: 'str' object has no attribute 'get'. Please ensure the input is a valid JSON and the date is in YYYY-MM-DD format."
  /\ outcome (search_flights (world_replying 404 body_empty)
                (json_text flight_args) EmptyString EmptyString)
     = Ok "API request failed: 404 Client Error: Not Found for url: https://google-flights2.p.rapidapi.com".
Proof. vm_compute. repeat split; reflexivity. Qed.

(** C5 (amended).  When the argument decodes to an object with the three
    keys, standard output takes the log line, the provider's reply is no
    4xx or 5xx, and its decoded body is falsy, or an object without a
    truthy ["data"], or an object whose ["data"] is an object without a
    truthy ["topFlights"], then [search_flights] returns "No flights found
    from <origin> to <destination> on <date>." *)
Theorem no_flights_when_structure_absent (w : World)
    (source destination departure_date : string)
    (origin_city destination_city date_val data : pyval) :
  argument_field w "origin" source = Some origin_city ->
  argument_field w "destination" source = Some destination_city ->
  argument_field w "departure_date" source = Some date_val ->
  stdout_fault w (flight_log_line w origin_city destination_city date_val) = None ->
  provider_returns w date_val data ->
  lacks_top_flights data = true ->
  outcome (search_flights w source destination departure_date)
  = Ok ("No flights found from " ++ py_str w origin_city ++ " to "
        ++ py_str w destination_city ++ " on " ++ py_str w date_val ++ ".").
Proof.
  intros Ho Hd Hdt Hprint (response & Hget & Hstatus & Hbody) Hlacks.
  destruct (argument_field_decoded w _ _ _ Ho) as (entries & Hj & Ho').
  unfold argument_field in Hd, Hdt. rewrite Hj in Hd, Hdt.
  unfold outcome, run.
  rewrite (search_flights_run w source _ _ [] entries _ _ _ Hj Ho' Hd Hdt), Hprint.
  simpl. unfold reply_text. rewrite Hget. simpl.
  unfold parse_response. rewrite (raise_for_status_ok response Hstatus). simpl.
  unfold response_json. rewrite Hbody. simpl.
  rewrite (no_top_flights_lacks w data Hlacks). reflexivity.
Qed.

Lemma no_flights_when_structure_absent_witness :
  provider_returns (world_replying 200 body_no_top_flights) (PStr "2025-10-15")
    body_no_top_flights
  /\ stdout_fault (world_replying 200 body_no_top_flights)
       (flight_log_line (world_replying 200 body_no_top_flights)
          (PStr "Mumbai") (PStr "Goa") (PStr "2025-10-15")) = None
  /\ lacks_top_flights body_no_top_flights = true
  /\ outcome (search_flights (world_replying 200 body_no_top_flights)
                (json_text flight_args) EmptyString EmptyString)
     = Ok "No flights found from Mumbai to Goa on 2025-10-15.".
Proof.
  assert (Hp : provider_returns (world_replying 200 body_no_top_flights)
                 (PStr "2025-10-15") body_no_top_flights).
  { eexists. split; [reflexivity | split; vm_compute; reflexivity]. }
  assert (Hprint : stdout_fault (world_replying 200 body_no_top_flights)
            (flight_log_line (world_replying 200 body_no_top_flights)
               (PStr "Mumbai") (PStr "Goa") (PStr "2025-10-15")) = None)
    by (vm_compute; reflexivity).
  split; [exact Hp | split; [exact Hprint | split; [reflexivity|]]].
  exact (no_flights_when_structure_absent (world_replying 200 body_no_top_flights)
           (json_text flight_args) EmptyString EmptyString
           (PStr "Mumbai") (PStr "Goa") (PStr "2025-10-15") body_no_top_flights
           eq_refl eq_refl eq_refl Hprint Hp eq_refl).
Defined.

(** ** C6 *)

(** C6 (counterexample).  The reply holds a [data.topFlights] list whose
    one entry has an empty ["flights"] list: indexing it raises, and the
    result is the generic error text instead of a formatted entry. *)
Lemma entry_without_legs_is_not_formatted :
  top_flights_of body_flight_without_legs
  = Some [PDict [("flights", PList []); ("price", PInt 52)]]
  /\ outcome (search_flights (world_replying 200 body_flight_without_legs)
                (json_text flight_args) EmptyString EmptyString)
     = Ok "An error occurred while searching for flights: list index out of range. Please ensure the input is a valid JSON and the date is in YYYY-MM-DD format.".
Proof. vm_compute. split; reflexivity. Qed.

(** C6 (amended).  When the argument is well formed, standard output takes
    the log line, the reply is no 4xx or 5xx, and [data.topFlights] is a
    non-empty list whose first three
    entries are objects in which ["flights"], when present, is a list that
    starts with an object and ["duration"], when present, is an object,
    then [search_flights] returns the heading and one line for each of
    the first three entries, at most three lines, with "N/A" for an absent
    airline, price, duration text or stops.  Entries after the third are
    not read. *)
Theorem top_three_flights_are_formatted (w : World)
    (source destination departure_date : string)
    (origin_city destination_city date_val data : pyval) (flights : list pyval) :
  argument_field w "origin" source = Some origin_city ->
  argument_field w "destination" source = Some destination_city ->
  argument_field w "departure_date" source = Some date_val ->
  stdout_fault w (flight_log_line w origin_city destination_city date_val) = None ->
  provider_returns w date_val data ->
  top_flights_of data = Some flights ->
  flights <> [] ->
  forallb entry_well_formed (firstn 3 flights) = true ->
  outcome (search_flights w source destination departure_date)
  = Ok ("Here are the top flight options:" ++ newline
        ++ join newline (map (flight_line w) (firstn 3 flights)))
  /\ (List.length (map (flight_line w) (firstn 3 flights)) <= 3)%nat.
Proof.
  intros Ho Hd Hdt Hprint (response & Hget & Hstatus & Hbody) Htop Hne Hwf.
  split; [|rewrite length_map, length_firstn; lia].
  destruct (argument_field_decoded w _ _ _ Ho) as (entries & Hj & Ho').
  unfold argument_field in Hd, Hdt. rewrite Hj in Hd, Hdt.
  unfold outcome, run.
  rewrite (search_flights_run w source _ _ [] entries _ _ _ Hj Ho' Hd Hdt), Hprint.
  simpl. unfold reply_text. rewrite Hget. simpl.
  unfold parse_response. rewrite (raise_for_status_ok response Hstatus). simpl.
  unfold response_json. rewrite Hbody. simpl.
  unfold top_flights_of in Htop.
  destruct data as [| | | | | |body]; try discriminate.
  destruct (dict_lookup "data" body) as [[| | | | | |inner]|] eqn:Hdata; try discriminate.
  destruct (dict_lookup "topFlights" inner) as [[| | | | |items|]|] eqn:Hitems;
    try discriminate.
  injection Htop as ->.
  destruct flights as [|first others]; [contradiction|].
  unfold no_top_flights, format_top_flights. simpl.
  rewrite Hdata. simpl. rewrite Hitems. simpl.
  destruct body as [|entry body]; [discriminate|].
  destruct inner as [|entry' inner]; [discriminate|]. simpl.
  apply andb_true_iff in Hwf as [Hfirst Hrest].
  rewrite (format_flight_well_formed w first Hfirst). simpl.
  rewrite (format_each_well_formed w _ _ Hrest). reflexivity.
Qed.

Lemma top_three_flights_are_formatted_witness :
  provider_returns demo_world (PStr "2025-10-15") body_four_flights
  /\ top_flights_of body_four_flights = Some four_flights
  /\ List.length four_flights = 4%nat
  /\ outcome (search_flights demo_world (json_text flight_args) EmptyString EmptyString)
     = Ok ("Here are the top flight options:" ++ newline
           ++ join newline
                ["- Airline: IndiGo, Price: $52, Duration: 1 hr 15 min, Stops: 0";
                 "- Airline: Air India, Price: $61, Duration: 1 hr 20 min, Stops: 0";
                 "- Airline: N/A, Price: $75, Duration: N/A, Stops: N/A"]).
Proof.
  assert (Hp : provider_returns demo_world (PStr "2025-10-15") body_four_flights).
  { eexists. split; [reflexivity | split; vm_compute; reflexivity]. }
  assert (Hne : four_flights <> []) by discriminate.
  assert (Hprint : stdout_fault demo_world
            (flight_log_line demo_world (PStr "Mumbai") (PStr "Goa") (PStr "2025-10-15"))
          = None) by (vm_compute; reflexivity).
  split; [exact Hp | split; [reflexivity | split; [reflexivity|]]].
  exact (proj1 (top_three_flights_are_formatted demo_world
                  (json_text flight_args) EmptyString EmptyString
                  (PStr "Mumbai") (PStr "Goa") (PStr "2025-10-15") body_four_flights
                  four_flights eq_refl eq_refl eq_refl Hprint Hp eq_refl Hne eq_refl)).
Defined.

(** ** C7 *)

(** C7 (counterexample).  Two arguments hold the same departure date; the
    origin of one decodes to a lone surrogate.  For that one the log line
    cannot be printed, the [try] block is left before [requests.get], and
    no request goes out; for the other the request is sent.  So the origin
    does bear on the outgoing query. *)
Lemma unprintable_origin_sends_no_request :
  valid_arguments world_surrogate flight_keys (json_source flight_args_surrogate_origin)
  = true
  /\ argument_field world_surrogate "departure_date"
       (json_source flight_args_surrogate_origin)
     = argument_field world_surrogate "departure_date" (json_source flight_args)
  /\ run (search_flights world_surrogate (json_source flight_args_surrogate_origin)
            EmptyString EmptyString)
     = ([], Ok "An error occurred while searching for flights: 'utf-8' codec can't encode character '\ud800' in position 32: surrogates not allowed. Please ensure the input is a valid JSON and the date is in YYYY-MM-DD format.")
  /\ filter is_http_get
       (history (search_flights world_surrogate (json_source flight_args)
                   EmptyString EmptyString))
     = [EvHttpGet "https://google-flights2.p.rapidapi.com"
          [("X-RapidAPI-Key", Some "rapid-key");
           ("X-RapidAPI-Host", Some "google-flights2.p.rapidapi.com")]
          [("departure_airport_code", PStr "BOM");
           ("arrival_airport_code", PStr "GOI");
           ("date", PStr "2025-10-15");
           ("currency", PStr "INR")]].
Proof. vm_compute. repeat split; reflexivity. Qed.

(** C7 (amended).  For well-formed arguments whose log line standard
    output takes, [search_flights] sends exactly one request, to the fixed
    URL with the airport pair BOM and GOI, the currency INR and the
    decoded departure date; when the line is refused it sends none.  Two
    such arguments with the same departure date whose lines are both
    printed send the same request, whatever their origin and destination,
    and their results are equal unless both are the "No flights found"
    message, which names the origin and the destination. *)
Theorem search_flights_query_is_fixed_route (w : World)
    (source1 source2 destination1 departure_date1 destination2 departure_date2 : string)
    (origin1 place1 origin2 place2 date_val : pyval) :
  argument_field w "origin" source1 = Some origin1 ->
  argument_field w "destination" source1 = Some place1 ->
  argument_field w "departure_date" source1 = Some date_val ->
  argument_field w "origin" source2 = Some origin2 ->
  argument_field w "destination" source2 = Some place2 ->
  argument_field w "departure_date" source2 = Some date_val ->
  filter is_http_get (history (search_flights w source1 destination1 departure_date1))
  = match stdout_fault w (flight_log_line w origin1 place1 date_val) with
    | None =>
        [EvHttpGet "https://google-flights2.p.rapidapi.com"
           [("X-RapidAPI-Key", getenv w "RAPIDAPI_KEY");
            ("X-RapidAPI-Host", Some "google-flights2.p.rapidapi.com")]
           [("departure_airport_code", PStr "BOM");
            ("arrival_airport_code", PStr "GOI");
            ("date", date_val);
            ("currency", PStr "INR")]]
    | Some _ => []
    end
  /\ (stdout_fault w (flight_log_line w origin1 place1 date_val) = None ->
      stdout_fault w (flight_log_line w origin2 place2 date_val) = None ->
      filter is_http_get (history (search_flights w source2 destination2 departure_date2))
      = filter is_http_get (history (search_flights w source1 destination1 departure_date1))
      /\ (outcome (search_flights w source1 destination1 departure_date1)
          = outcome (search_flights w source2 destination2 departure_date2)
          \/ (outcome (search_flights w source1 destination1 departure_date1)
              = Ok (no_flights_message w origin1 place1 date_val)
              /\ outcome (search_flights w source2 destination2 departure_date2)
                 = Ok (no_flights_message w origin2 place2 date_val)))).
Proof.
  intros Ho1 Hd1 Hdt1 Ho2 Hd2 Hdt2.
  destruct (argument_field_decoded w _ _ _ Ho1) as (e1 & Hj1 & Ho1').
  destruct (argument_field_decoded w _ _ _ Ho2) as (e2 & Hj2 & Ho2').
  unfold argument_field in Hd1, Hdt1, Hd2, Hdt2. rewrite Hj1 in Hd1, Hdt1.
  rewrite Hj2 in Hd2, Hdt2.
  unfold history, outcome, run.
  rewrite (search_flights_run w source1 _ _ [] e1 _ _ _ Hj1 Ho1' Hd1 Hdt1).
  rewrite (search_flights_run w source2 _ _ [] e2 _ _ _ Hj2 Ho2' Hd2 Hdt2).
  split.
  - destruct (stdout_fault w (flight_log_line w origin1 place1 date_val)); reflexivity.
  - intros -> ->. split; [reflexivity|]. simpl.
    destruct (reply_text_route_independent w origin1 place1 origin2 place2 date_val
                (http_get w api_url (headers w) (querystring date_val))) as [E|[E1 E2]].
    + left. rewrite E. reflexivity.
    + right. rewrite E1, E2. split; reflexivity.
Qed.

Lemma search_flights_query_is_fixed_route_witness :
  argument_field demo_world "origin" (json_text flight_args_delhi) = Some (PStr "Delhi")
  /\ stdout_fault demo_world
       (flight_log_line demo_world (PStr "Delhi") (PStr "Jaipur") (PStr "2025-10-15")) = None
  /\ filter is_http_get
       (history (search_flights demo_world (json_text flight_args_delhi)
                   EmptyString EmptyString))
     = filter is_http_get
         (history (search_flights demo_world (json_text flight_args)
                     EmptyString EmptyString)).
Proof.
  assert (H1 : stdout_fault demo_world
            (flight_log_line demo_world (PStr "Mumbai") (PStr "Goa") (PStr "2025-10-15"))
          = None) by (vm_compute; reflexivity).
  assert (H2 : stdout_fault demo_world
            (flight_log_line demo_world (PStr "Delhi") (PStr "Jaipur") (PStr "2025-10-15"))
          = None) by (vm_compute; reflexivity).
  split; [vm_compute; reflexivity | split; [exact H2|]].
  exact (proj1 (proj2 (search_flights_query_is_fixed_route demo_world
                         (json_text flight_args) (json_text flight_args_delhi)
                         EmptyString EmptyString EmptyString EmptyString
                         (PStr "Mumbai") (PStr "Goa") (PStr "Delhi") (PStr "Jaipur")
                         (PStr "2025-10-15")
                         eq_refl eq_refl eq_refl eq_refl eq_refl eq_refl) H1 H2)).
Defined.

(** ** C8 *)

(** C8.  When the system date is a calendar date of the year 1000 or
    later, [get_current_date] returns, for every argument and without any
    effect, "Today's date is <Weekday>, <Month> <DD>, <YYYY>." with the
    weekday and the month by name, the day as two digits and the year as
    four. *)
Theorem get_current_date_matches_pattern (w : World) (query : string) :
  valid_date (today w) ->
  (1000 <= year (today w))%Z ->
  exists message,
    run (get_current_date w query) = ([], Ok message)
    /\ message = "Today's date is " ++ day_name (today w) ++ ", " ++ month_name (today w)
                 ++ " " ++ two_digits (day (today w)) ++ ", "
                 ++ string_of_Z (year (today w)) ++ "."
    /\ In (day_name (today w)) day_names
    /\ In (month_name (today w)) month_names
    /\ all_digits (two_digits (day (today w))) = true
    /\ all_digits (string_of_Z (year (today w))) = true
    /\ String.length (string_of_Z (year (today w))) = 4%nat
    /\ matches_date_pattern message = true.
Proof.
  intros Hvalid Hy'.
  pose proof (valid_day_range _ Hvalid) as Hday.
  destruct Hvalid as (Hy & Hm & Hd).
  destruct (year_four_digits (year (today w))) as [Hya Hyl]; [lia|].
  assert (Hdd : all_digits (two_digits (day (today w))) = true)
    by (apply two_digits_are_digits; lia).
  eexists. split; [reflexivity|].
  rewrite strftime_pattern, !append_assoc.
  split; [reflexivity|].
  split; [apply day_name_listed|].
  split; [apply month_name_listed; exact Hm|].
  split; [exact Hdd|]. split; [exact Hya|]. split; [exact Hyl|].
  unfold matches_date_pattern.
  rewrite strip_prefix_append. cbn [option_bind].
  rewrite strip_day_name. cbn [option_bind].
  rewrite strip_prefix_append. cbn [option_bind].
  rewrite strip_month_name by exact Hm. cbn [option_bind].
  rewrite strip_prefix_append. cbn [option_bind].
  rewrite (strip_all_digits 2) by (exact Hdd || reflexivity). cbn [option_bind].
  rewrite strip_prefix_append. cbn [option_bind].
  rewrite (strip_all_digits 4) by (exact Hya || exact Hyl). reflexivity.
Qed.

Lemma get_current_date_matches_pattern_witness :
  valid_date (today demo_world)
  /\ (1000 <= year (today demo_world))%Z
  /\ matches_date_pattern "Today's date is Wednesday, October 15, 2025." = true
  /\ exists message,
       run (get_current_date demo_world "today") = ([], Ok message)
       /\ message = "Today's date is Wednesday, October 15, 2025.".
Proof.
  assert (Hv : valid_date (today demo_world)) by (vm_compute; intuition discriminate).
  assert (Hy : (1000 <= year (today demo_world))%Z) by (vm_compute; discriminate).
  split; [exact Hv | split; [exact Hy | split; [reflexivity|]]].
  destruct (get_current_date_matches_pattern demo_world "today" Hv Hy)
    as (message & Hrun & Hmsg & _).
  exists message. split; [exact Hrun | rewrite Hmsg; reflexivity].
Defined.

(** ** C9 *)

(** C9 (counterexample).  A model whose completions are of neither shape
    never emits a final answer, and the loop stops at its first completion
    with a parse error, not at the cap with an execution-limit error. *)
Lemma unparseable_completion_is_parse_error :
  (forall trace,
     parse framework_rambling (complete framework_rambling "Plan a trip to Goa" trace)
     = Unparseable)
  /\ run (create_trip_planner_agent demo_world framework_rambling "Plan a trip to Goa")
     = ([], Ok {| steps := []; model_calls := 1;
                  answer := inl (ParseError "I think Goa is lovely.") |}).
Proof. split; [intros trace|]; reflexivity. Qed.

(** C9 (amended).  If no completion of the model is a final answer, the
    loop built by [create_trip_planner_agent] returns after at most the
    framework's default number of model calls, and it returns a failure.
    Every step of its transcript was asked for by a completion that was a
    tool call.  The failure is the execution-limit error, after exactly
    the default number of tool calls, when every completion was a tool
    call; it is a parse error, at the first completion that is of neither
    shape, when there is one within the cap: the loop stops there, one
    model call after the steps it recorded. *)
Theorem loop_stops_within_cap (w : World) (fw : Framework) (task : string) :
  (forall trace text, parse fw (complete fw task trace) <> FinalAnswer text) ->
  exists h r,
    run (create_trip_planner_agent w fw task) = (h, Ok r)
    /\ (model_calls r <= default_max_iterations fw)%nat
    /\ (forall k, (k < List.length (steps r))%nat ->
        exists name input seen,
          parse fw (complete fw task (firstn k (steps r))) = ToolCall name input
          /\ nth_error (steps r) k
             = Some {| action := name; action_input := input; observation := seen |})
    /\ ((answer r = inl ExecutionLimit
         /\ List.length (steps r) = default_max_iterations fw
         /\ model_calls r = default_max_iterations fw)
        \/ (answer r = inl (ParseError (complete fw task (steps r)))
            /\ parse fw (complete fw task (steps r)) = Unparseable
            /\ (List.length (steps r) < default_max_iterations fw)%nat
            /\ model_calls r = (List.length (steps r) + 1)%nat)).
Proof.
  intros Hnever.
  destruct (iterate_never_final fw (tools w) task Hnever (default_max_iterations fw) [] 0 [])
    as (h & r & added & Hrun & Hsteps & Hprefix & Hcase).
  simpl in Hsteps. subst added.
  exists h, r. split; [exact Hrun|].
  split; [destruct Hcase as [(_ & _ & Hc)|(_ & _ & Hl & Hc)]; simpl in Hc; lia|].
  split; [exact Hprefix|].
  destruct Hcase as [(Ha & Hl & Hc)|(Ha & Hp & Hl & Hc)].
  - left. auto.
  - right. simpl in Hc. auto.
Qed.

Lemma loop_stops_within_cap_witness :
  (forall trace text,
     parse framework_always_date (complete framework_always_date "Plan a trip to Goa" trace)
     <> FinalAnswer text)
  /\ (forall trace text,
        parse framework_rambling (complete framework_rambling "Plan a trip to Goa" trace)
        <> FinalAnswer text)
  /\ (exists h r,
        run (create_trip_planner_agent demo_world framework_always_date "Plan a trip to Goa")
        = (h, Ok r)
        /\ answer r = inl ExecutionLimit
        /\ model_calls r = 15%nat)
  /\ (exists h r,
        run (create_trip_planner_agent demo_world framework_rambling "Plan a trip to Goa")
        = (h, Ok r)
        /\ answer r = inl (ParseError "I think Goa is lovely.")
        /\ model_calls r = 1%nat).
Proof.
  assert (Hdate : forall trace text,
             parse framework_always_date
               (complete framework_always_date "Plan a trip to Goa" trace)
             <> FinalAnswer text) by (intros trace text; discriminate).
  assert (Hramble : forall trace text,
             parse framework_rambling
               (complete framework_rambling "Plan a trip to Goa" trace)
             <> FinalAnswer text) by (intros trace text; discriminate).
  split; [exact Hdate | split; [exact Hramble | split]].
  - destruct (loop_stops_within_cap demo_world framework_always_date "Plan a trip to Goa"
                Hdate) as (h & r & Hrun & _ & _ & Hcase).
    exists h, r. split; [exact Hrun|].
    destruct Hcase as [(Ha & _ & Hc)|(_ & Hp & _)]; [split; assumption | discriminate Hp].
  - destruct (loop_stops_within_cap demo_world framework_rambling "Plan a trip to Goa"
                Hramble) as (h & r & Hrun & _ & Hprefix & Hcase).
    exists h, r. split; [exact Hrun|].
    destruct (steps r) as [|step others] eqn:Hsteps.
    + destruct Hcase as [(_ & Hl & _)|(Ha & _ & _ & Hc)]; [discriminate Hl|].
      split; [exact Ha | exact Hc].
    + destruct (Hprefix 0%nat) as (name & input & seen & Hp & _); [simpl; lia|].
      discriminate Hp.
Defined.

(** ** C10 *)

(** C10 (counterexample).  Two arguments hold the same destination and
    differ in the check-in date, which in one of them decodes to a lone
    surrogate: that one gets the error text, the other the offers. *)
Lemma unprintable_date_changes_hotel_result :
  argument_field world_surrogate "destination" (json_source hotel_args)
  = argument_field world_surrogate "destination" (json_source hotel_args_surrogate_date)
  /\ valid_arguments world_surrogate hotel_keys (json_source hotel_args) = true
  /\ valid_arguments world_surrogate hotel_keys (json_source hotel_args_surrogate_date)
     = true
  /\ outcome (search_hotels world_surrogate (json_source hotel_args)
                EmptyString EmptyString EmptyString)
     = Ok "Found 3 hotels in Goa: 1. The Grand Hotel (₹8000/night, 4.5 stars), 2. City Inn (₹4500/night, 4.0 stars), 3. Budget Stay (₹2500/night, 3.5 stars)."
  /\ outcome (search_hotels world_surrogate (json_source hotel_args_surrogate_date)
                EmptyString EmptyString EmptyString)
     = Ok "Error processing hotel search: 'utf-8' codec can't encode character '\ud800' in position 33: surrogates not allowed. Please ensure the input is a valid JSON with 'destination', 'check_in_date', and 'check_out_date' keys.".
Proof. vm_compute. repeat split; reflexivity. Qed.

(** C10 (amended).  Two well-formed arguments of [search_hotels] that
    hold the same value under ["destination"], and whose log lines
    standard output takes, get the same text, whatever their dates and
    whatever the other three parameters are. *)
Theorem search_hotels_ignores_dates (w : World)
    (source1 source2 d1 i1 c1 d2 i2 c2 : string)
    (place check_in1 check_out1 check_in2 check_out2 : pyval) :
  argument_field w "destination" source1 = Some place ->
  argument_field w "check_in_date" source1 = Some check_in1 ->
  argument_field w "check_out_date" source1 = Some check_out1 ->
  argument_field w "destination" source2 = Some place ->
  argument_field w "check_in_date" source2 = Some check_in2 ->
  argument_field w "check_out_date" source2 = Some check_out2 ->
  stdout_fault w (hotel_log_line w place check_in1 check_out1) = None ->
  stdout_fault w (hotel_log_line w place check_in2 check_out2) = None ->
  exists message,
    outcome (search_hotels w source1 d1 i1 c1) = Ok message
    /\ outcome (search_hotels w source2 d2 i2 c2) = Ok message.
Proof.
  intros Hp1 Hi1 Ho1 Hp2 Hi2 Ho2 Hprint1 Hprint2.
  destruct (argument_field_decoded w _ _ _ Hp1) as (e1 & Hj1 & Hp1').
  destruct (argument_field_decoded w _ _ _ Hp2) as (e2 & Hj2 & Hp2').
  unfold argument_field in Hi1, Ho1, Hi2, Ho2.
  rewrite Hj1 in Hi1, Ho1. rewrite Hj2 in Hi2, Ho2.
  unfold outcome, run.
  rewrite (search_hotels_run w source1 _ _ _ [] e1 _ _ _ Hj1 Hp1' Hi1 Ho1), Hprint1.
  rewrite (search_hotels_run w source2 _ _ _ [] e2 _ _ _ Hj2 Hp2' Hi2 Ho2), Hprint2.
  eexists. split; reflexivity.
Qed.

Lemma search_hotels_ignores_dates_witness :
  argument_field demo_world "check_in_date" (json_text hotel_args_later)
  = Some (PStr "2025-11-01")
  /\ stdout_fault demo_world
       (hotel_log_line demo_world (PStr "Goa") (PStr "2025-11-01") (PStr "2025-11-05"))
     = None
  /\ exists message,
       outcome (search_hotels demo_world (json_text hotel_args)
                  EmptyString EmptyString EmptyString) = Ok message
       /\ outcome (search_hotels demo_world (json_text hotel_args_later)
                     EmptyString EmptyString EmptyString) = Ok message.
Proof.
  assert (H1 : stdout_fault demo_world
            (hotel_log_line demo_world (PStr "Goa") (PStr "2025-10-15") (PStr "2025-10-18"))
          = None) by (vm_compute; reflexivity).
  assert (H2 : stdout_fault demo_world
            (hotel_log_line demo_world (PStr "Goa") (PStr "2025-11-01") (PStr "2025-11-05"))
          = None) by (vm_compute; reflexivity).
  split; [vm_compute; reflexivity | split; [exact H2|]].
  exact (search_hotels_ignores_dates demo_world (json_text hotel_args)
           (json_text hotel_args_later) EmptyString EmptyString EmptyString
           EmptyString EmptyString EmptyString
           (PStr "Goa") (PStr "2025-10-15") (PStr "2025-10-18")
           (PStr "2025-11-01") (PStr "2025-11-05")
           eq_refl eq_refl eq_refl eq_refl eq_refl eq_refl H1 H2).
Defined.

(** * Further properties of the code *)

(** ** [search_flights]: what the provider's answer becomes *)

Lemma search_flights_outcome (w : World) (source dst dep : string)
    (origin_city destination_city date_val : pyval) :
  argument_field w "origin" source = Some origin_city ->
  argument_field w "destination" source = Some destination_city ->
  argument_field w "departure_date" source = Some date_val ->
  outcome (search_flights w source dst dep)
  = Ok match stdout_fault w (flight_log_line w origin_city destination_city date_val) with
       | None =>
           reply_text w origin_city destination_city date_val
             (http_get w api_url (headers w) (querystring date_val))
       | Some fault => flights_error_text (fault_exn fault)
       end.
Proof.
  intros Ho Hd Hdt.
  destruct (argument_field_decoded w _ _ _ Ho) as (entries & Hj & Ho').
  unfold argument_field in Hd, Hdt. rewrite Hj in Hd, Hdt.
  unfold outcome, run.
  rewrite (search_flights_run w source _ _ [] entries _ _ _ Hj Ho' Hd Hdt).
  destruct (stdout_fault w _); reflexivity.
Qed.

(** X1.  Once the log line is printed, a reply with a 4xx or 5xx status
    is reported as a failed request that quotes the status, the reason and
    the URL; the body of such a reply is not read. *)
Theorem http_error_status_is_request_failure (w : World) (source dst dep : string)
    (origin_city destination_city date_val : pyval) (response : http_response) :
  argument_field w "origin" source = Some origin_city ->
  argument_field w "destination" source = Some destination_city ->
  argument_field w "departure_date" source = Some date_val ->
  stdout_fault w (flight_log_line w origin_city destination_city date_val) = None ->
  http_get w api_url (headers w) (querystring date_val) = Ok response ->
  (400 <= status_code response < 600)%Z ->
  outcome (search_flights w source dst dep)
  = Ok ("API request failed: " ++ string_of_Z (status_code response)
        ++ (if (status_code response <? 500)%Z then " Client Error: "
            else " Server Error: ")
        ++ reason response ++ " for url: " ++ url response).
Proof.
  intros Ho Hd Hdt Hprint Hget Hstatus.
  rewrite (search_flights_outcome w source dst dep _ _ _ Ho Hd Hdt), Hprint, Hget.
  unfold reply_text, parse_response, raise_for_status. simpl.
  destruct (status_code response <? 500)%Z eqn:E.
  - replace (400 <=? status_code response)%Z with true by (symmetry; apply Z.leb_le; lia).
    reflexivity.
  - replace (400 <=? status_code response)%Z with true by (symmetry; apply Z.leb_le; lia).
    replace (500 <=? status_code response)%Z with true
      by (symmetry; apply Z.leb_le; apply Z.ltb_ge in E; lia).
    replace (status_code response <? 600)%Z with true by (symmetry; apply Z.ltb_lt; lia).
    reflexivity.
Qed.

Lemma http_error_status_is_request_failure_witness :
  http_get (world_replying 404 body_four_flights) api_url
    (headers (world_replying 404 body_four_flights)) (querystring (PStr "2025-10-15"))
  = Ok {| status_code := 404; reason := "Not Found"; url := api_url;
          text := json_text body_four_flights |}
  /\ outcome (search_flights (world_replying 404 body_four_flights)
                (json_text flight_args) EmptyString EmptyString)
     = Ok "API request failed: 404 Client Error: Not Found for url: https://google-flights2.p.rapidapi.com".
Proof.
  assert (Hstatus : (400 <= 404 < 600)%Z) by lia.
  assert (Hprint : stdout_fault (world_replying 404 body_four_flights)
            (flight_log_line (world_replying 404 body_four_flights)
               (PStr "Mumbai") (PStr "Goa") (PStr "2025-10-15")) = None)
    by (vm_compute; reflexivity).
  split; [reflexivity|].
  exact (http_error_status_is_request_failure (world_replying 404 body_four_flights)
           (json_text flight_args) EmptyString EmptyString
           (PStr "Mumbai") (PStr "Goa") (PStr "2025-10-15")
           {| status_code := 404; reason := "Not Found"; url := api_url;
              text := json_text body_four_flights |}
           eq_refl eq_refl eq_refl Hprint eq_refl Hstatus).
Defined.

(** X2.  Once the log line is printed, when the request itself raises,
    the first [except] clause takes every [RequestException] and reports a
    failed request; any other exception reaches the second clause, whose
    text blames the input. *)
Theorem transport_failure_is_reported (w : World) (source dst dep : string)
    (origin_city destination_city date_val : pyval) (e : exn) :
  argument_field w "origin" source = Some origin_city ->
  argument_field w "destination" source = Some destination_city ->
  argument_field w "departure_date" source = Some date_val ->
  stdout_fault w (flight_log_line w origin_city destination_city date_val) = None ->
  http_get w api_url (headers w) (querystring date_val) = Raise e ->
  outcome (search_flights w source dst dep)
  = Ok (if is_request_exception e then "API request failed: " ++ exn_str e
        else "An error occurred while searching for flights: " ++ exn_str e
             ++ ". Please ensure the input is a valid JSON and the date is in YYYY-MM-DD format.").
Proof.
  intros Ho Hd Hdt Hprint Hget.
  rewrite (search_flights_outcome w source dst dep _ _ _ Ho Hd Hdt), Hprint, Hget.
  reflexivity.
Qed.

Lemma transport_failure_is_reported_witness :
  outcome (search_flights world_offline (json_text flight_args) EmptyString EmptyString)
  = Ok "API request failed: HTTPSConnectionPool(host='google-flights2.p.rapidapi.com', port=443): Max retries exceeded"
  /\ outcome (search_flights world_broken (json_text flight_args) EmptyString EmptyString)
     = Ok "An error occurred while searching for flights: no event loop. Please ensure the input is a valid JSON and the date is in YYYY-MM-DD format.".
Proof.
  assert (H1 : stdout_fault world_offline
            (flight_log_line world_offline (PStr "Mumbai") (PStr "Goa") (PStr "2025-10-15"))
          = None) by (vm_compute; reflexivity).
  assert (H2 : stdout_fault world_broken
            (flight_log_line world_broken (PStr "Mumbai") (PStr "Goa") (PStr "2025-10-15"))
          = None) by (vm_compute; reflexivity).
  split.
  - exact (transport_failure_is_reported world_offline (json_text flight_args)
             EmptyString EmptyString (PStr "Mumbai") (PStr "Goa") (PStr "2025-10-15")
             connection_refused eq_refl eq_refl eq_refl H1 eq_refl).
  - exact (transport_failure_is_reported world_broken (json_text flight_args)
             EmptyString EmptyString (PStr "Mumbai") (PStr "Goa") (PStr "2025-10-15")
             broken_setup eq_refl eq_refl eq_refl H2 eq_refl).
Defined.

(** The texts the [try] block of [search_flights] can end with. *)
Lemma parse_response_shape (w : World) (o d dt : pyval) (r : http_response) (s : string) :
  parse_response w o d dt r = Ok s ->
  s = no_flights_message w o d dt
  \/ exists line others,
       s = "Here are the top flight options:" ++ newline ++ join newline (line :: others).
Proof.
  unfold parse_response. intros H. do 3 and_then_inv H.
  match type of H with (if ?b then _ else _) = _ => destruct b eqn:Hb end.
  - injection H as <-. left. reflexivity.
  - and_then_inv H.
    match goal with
    | Hn : no_top_flights w ?data = Ok false, Hf : format_top_flights w ?data = Ok ?l |- _ =>
        destruct (format_top_flights_nonempty w data l Hn Hf) as (line & others & ->)
    end.
    injection H as <-. right. exists line, others. reflexivity.
Qed.

(** X3.  Whatever the argument and whatever the world does,
    [search_flights] returns a text that opens in one of four ways: "No
    flights found from", "Here are the top flight options:", "API request
    failed:" or "An error occurred while searching for flights:".  The
    text "Could not parse flight information" is never returned: the
    branch that builds it cannot be reached. *)
Theorem search_flights_result_shapes (w : World) (source dst dep : string)
    (h : list event) :
  exists h' message,
    search_flights w source dst dep h = (h', Ok message)
    /\ flights_result_shape message = true
    /\ prefix "Could not parse flight information" message = false.
Proof.
  unfold search_flights.
  apply (try_except_returns
           (fun message => flights_result_shape message = true
                           /\ prefix "Could not parse flight information" message = false)).
  - intros h1 a H. do 6 bind_inv H. apply lift_inv in H.
    apply parse_response_shape in H.
    destruct H as [->|(line & others & ->)];
      unfold flights_result_shape, no_flights_message;
      (split; [rewrite prefix_append; reflexivity | reflexivity]).
  - intros e h1. eexists _, _. split; [reflexivity|].
    unfold flights_error_text, flights_result_shape.
    destruct (is_request_exception e);
      (split; [rewrite prefix_append; reflexivity | reflexivity]).
Qed.

(** ** [search_flights]: the entries of [topFlights] *)

Lemma top_flights_guard (w : World) (data : pyval) (flights : list pyval) :
  top_flights_of data = Some flights ->
  no_top_flights w data = Ok (match flights with [] => true | _ :: _ => false end)
  /\ format_top_flights w data = format_each w (firstn 3 flights) [].
Proof.
  unfold top_flights_of, no_top_flights, format_top_flights. intros H.
  destruct data as [| | | | | |body]; try discriminate.
  destruct (dict_lookup "data" body) as [[| | | | | |inner]|] eqn:Hdata; try discriminate.
  destruct (dict_lookup "topFlights" inner) as [[| | | | |items|]|] eqn:Hitems;
    try discriminate.
  injection H as ->.
  destruct body as [|entry body]; [discriminate|].
  destruct inner as [|entry' inner]; [discriminate|].
  cbn [truthy negb py_get py_getitem and_then]. rewrite Hdata.
  cbn [truthy negb py_get py_getitem and_then]. rewrite Hitems.
  cbn [truthy negb py_slice3 py_iter and_then].
  split; [destruct flights|]; reflexivity.
Qed.

(** X4.  Only the first three entries of [data.topFlights] are read: two
    replies (neither 4xx nor 5xx) whose lists agree on their first three
    entries give the same result, whatever else the lists and the bodies
    hold, and whether or not the entries can be formatted. *)
Theorem only_first_three_entries_are_read (w : World)
    (origin_city destination_city date_val : pyval)
    (reply1 reply2 : http_response) (data1 data2 : pyval) (flights1 flights2 : list pyval) :
  is_ok_status (status_code reply1) = true ->
  is_ok_status (status_code reply2) = true ->
  json_decode w (text reply1) = inl data1 ->
  json_decode w (text reply2) = inl data2 ->
  top_flights_of data1 = Some flights1 ->
  top_flights_of data2 = Some flights2 ->
  firstn 3 flights1 = firstn 3 flights2 ->
  parse_response w origin_city destination_city date_val reply1
  = parse_response w origin_city destination_city date_val reply2.
Proof.
  intros Hs1 Hs2 Hb1 Hb2 Ht1 Ht2 Hsame.
  destruct (top_flights_guard w data1 flights1 Ht1) as [Hn1 Hf1].
  destruct (top_flights_guard w data2 flights2 Ht2) as [Hn2 Hf2].
  unfold parse_response.
  rewrite (raise_for_status_ok reply1 Hs1), (raise_for_status_ok reply2 Hs2).
  unfold response_json. rewrite Hb1, Hb2. cbn [and_then].
  rewrite Hn1, Hn2, Hf1, Hf2, Hsame. cbn [and_then].
  destruct flights1 as [|x1 l1], flights2 as [|x2 l2]; try discriminate; reflexivity.
Qed.

Lemma only_first_three_entries_are_read_witness :
  top_flights_of body_four_flights = Some four_flights
  /\ top_flights_of body_three_flights = Some (firstn 3 four_flights)
  /\ parse_response world_two_bodies (PStr "Mumbai") (PStr "Goa") (PStr "2025-10-15")
       (reply_with body_four_flights)
     = parse_response world_two_bodies (PStr "Mumbai") (PStr "Goa") (PStr "2025-10-15")
         (reply_with body_three_flights).
Proof.
  split; [reflexivity | split; [reflexivity|]].
  apply (only_first_three_entries_are_read world_two_bodies _ _ _
           (reply_with body_four_flights) (reply_with body_three_flights)
           body_four_flights body_three_flights four_flights (firstn 3 four_flights));
    vm_compute; reflexivity.
Defined.









(** ** Missing keys *)

(** X6.  [search_hotels] reads the keys in the order destination,
    check_in_date, check_out_date and stops at the first one the decoded
    object lacks: the error text names that key and no other, and nothing
    is printed. *)
Theorem search_hotels_names_first_missing_key (w : World)
    (source destination check_in_date check_out_date : string)
    (entries : list (string * pyval)) :
  json_decode w source = inl (PDict entries) ->
  forall missing,
    (missing = "destination" /\ has_key "destination" entries = false
     \/ missing = "check_in_date" /\ has_key "destination" entries = true
        /\ has_key "check_in_date" entries = false
     \/ missing = "check_out_date" /\ has_key "destination" entries = true
        /\ has_key "check_in_date" entries = true
        /\ has_key "check_out_date" entries = false) ->
    run (search_hotels w source destination check_in_date check_out_date)
    = ([], Ok ("Error processing hotel search: " ++ repr_str w missing
               ++ ". Please ensure the input is a valid JSON with 'destination', 'check_in_date', and 'check_out_date' keys.")).
Proof.
  intros Hj missing Hcase.
  unfold run, search_hotels, try_except, bind, lift, json_loads, py_getitem.
  rewrite Hj. unfold has_key in Hcase.
  destruct Hcase as [(-> & H1)|[(-> & H1 & H2)|(-> & H1 & H2 & H3)]].
  - destruct (dict_lookup "destination" entries); [discriminate | reflexivity].
  - destruct (dict_lookup "destination" entries); [|discriminate].
    destruct (dict_lookup "check_in_date" entries); [discriminate | reflexivity].
  - destruct (dict_lookup "destination" entries); [|discriminate].
    destruct (dict_lookup "check_in_date" entries); [|discriminate].
    destruct (dict_lookup "check_out_date" entries); [discriminate | reflexivity].
Qed.

Lemma search_hotels_names_first_missing_key_witness :
  json_decode world_partial_arguments (json_text hotel_args_no_check_out)
  = inl hotel_args_no_check_out
  /\ run (search_hotels world_partial_arguments (json_text hotel_args_no_check_out)
            EmptyString EmptyString EmptyString)
     = ([], Ok "Error processing hotel search: 'check_out_date'. Please ensure the input is a valid JSON with 'destination', 'check_in_date', and 'check_out_date' keys.").
Proof.
  split; [reflexivity|].
  apply (search_hotels_names_first_missing_key world_partial_arguments
           (json_text hotel_args_no_check_out) EmptyString EmptyString EmptyString
           [("destination", PStr "Goa"); ("check_in_date", PStr "2025-10-15")]
           eq_refl "check_out_date").
  right. right. repeat split; reflexivity.
Defined.

(** X7.  [search_flights] reads the keys in the order origin, destination,
    departure_date and stops at the first one the decoded object lacks:
    the error text names that key, nothing is printed and no request is
    sent. *)
Theorem search_flights_names_first_missing_key (w : World)
    (source destination departure_date : string) (entries : list (string * pyval)) :
  json_decode w source = inl (PDict entries) ->
  forall missing,
    (missing = "origin" /\ has_key "origin" entries = false
     \/ missing = "destination" /\ has_key "origin" entries = true
        /\ has_key "destination" entries = false
     \/ missing = "departure_date" /\ has_key "origin" entries = true
        /\ has_key "destination" entries = true
        /\ has_key "departure_date" entries = false) ->
    run (search_flights w source destination departure_date)
    = ([], Ok ("An error occurred while searching for flights: " ++ repr_str w missing
               ++ ". Please ensure the input is a valid JSON and the date is in YYYY-MM-DD format.")).
Proof.
  intros Hj missing Hcase.
  unfold run, search_flights, try_except, bind, lift, json_loads, py_getitem.
  rewrite Hj. unfold has_key in Hcase.
  destruct Hcase as [(-> & H1)|[(-> & H1 & H2)|(-> & H1 & H2 & H3)]].
  - destruct (dict_lookup "origin" entries); [discriminate | reflexivity].
  - destruct (dict_lookup "origin" entries); [|discriminate].
    destruct (dict_lookup "destination" entries); [discriminate | reflexivity].
  - destruct (dict_lookup "origin" entries); [|discriminate].
    destruct (dict_lookup "destination" entries); [|discriminate].
    destruct (dict_lookup "departure_date" entries); [discriminate | reflexivity].
Qed.

Lemma search_flights_names_first_missing_key_witness :
  json_decode world_partial_arguments (json_text flight_args_no_date)
  = inl flight_args_no_date
  /\ run (search_flights world_partial_arguments (json_text flight_args_no_date)
            EmptyString EmptyString)
     = ([], Ok "An error occurred while searching for flights: 'departure_date'. Please ensure the input is a valid JSON and the date is in YYYY-MM-DD format.").
Proof.
  split; [reflexivity|].
  apply (search_flights_names_first_missing_key world_partial_arguments
           (json_text flight_args_no_date) EmptyString EmptyString
           [("origin", PStr "Mumbai"); ("destination", PStr "Goa")]
           eq_refl "departure_date").
  right. right. repeat split; reflexivity.
Defined.

(** ** [search_hotels]: effects *)

(** X8.  [search_hotels] never reaches outside the process: whatever its
    arguments, a run sends no request, calls no search provider and no
    agent.  It prints at most one line, and only for a well-formed
    argument; when it has printed, the result is the list of offers, so
    nothing is printed by a run that returns an error text. *)
Theorem search_hotels_is_offline (w : World)
    (source destination check_in_date check_out_date : string) :
  forallb is_print (history (search_hotels w source destination check_in_date check_out_date))
  = true
  /\ (history (search_hotels w source destination check_in_date check_out_date) = []
      \/ exists place line,
           history (search_hotels w source destination check_in_date check_out_date)
           = [EvPrint line]
           /\ valid_arguments w hotel_keys source = true
           /\ argument_field w "destination" source = Some place
           /\ outcome (search_hotels w source destination check_in_date check_out_date)
              = Ok ("Found 3 hotels in " ++ py_str w place ++ hotel_offers)).
Proof.
  unfold history, outcome, run.
  destruct (valid_arguments w hotel_keys source) eqn:Hv.
  - destruct (valid_hotel_arguments w source Hv) as (entries & d & i & o & Hj & Hd & Hi & Ho).
    rewrite (search_hotels_run w source _ _ _ [] entries d i o Hj Hd Hi Ho).
    destruct (stdout_fault w _) as [fault|].
    + split; [reflexivity | left; reflexivity].
    + split; [reflexivity|]. right. exists d, (hotel_log_line w d i o).
      split; [reflexivity|]. split; [reflexivity|].
      split; [unfold argument_field; rewrite Hj; exact Hd | reflexivity].
  - destruct (search_hotels_malformed w source destination check_in_date check_out_date
                [] Hv) as (e & He).
    rewrite He. split; [reflexivity | left; reflexivity].
Qed.

(** X11.  The log line of [search_hotels] is printed inside the [try]:
    when standard output refuses it, for an argument that is well formed,
    the result is the error text with the fault's message, and nothing
    has been printed. *)
Theorem refused_hotel_log_line_is_reported (w : World)
    (source destination check_in_date check_out_date : string)
    (place check_in check_out : pyval) (fault : string * string) :
  argument_field w "destination" source = Some place ->
  argument_field w "check_in_date" source = Some check_in ->
  argument_field w "check_out_date" source = Some check_out ->
  stdout_fault w (hotel_log_line w place check_in check_out) = Some fault ->
  run (search_hotels w source destination check_in_date check_out_date)
  = ([], Ok ("Error processing hotel search: " ++ snd fault
             ++ ". Please ensure the input is a valid JSON with 'destination', 'check_in_date', and 'check_out_date' keys.")).
Proof.
  intros Hd Hi Ho Hprint.
  destruct (argument_field_decoded w _ _ _ Hd) as (entries & Hj & Hd').
  unfold argument_field in Hi, Ho. rewrite Hj in Hi, Ho.
  unfold run.
  rewrite (search_hotels_run w source _ _ _ [] entries _ _ _ Hj Hd' Hi Ho), Hprint.
  reflexivity.
Qed.

Lemma refused_hotel_log_line_is_reported_witness :
  stdout_fault world_stdout_closed
    (hotel_log_line world_stdout_closed (PStr "Goa") (PStr "2025-10-15") (PStr "2025-10-18"))
  = Some ("ValueError", "I/O operation on closed file.")
  /\ run (search_hotels world_stdout_closed (json_text hotel_args)
            EmptyString EmptyString EmptyString)
     = ([], Ok "Error processing hotel search: I/O operation on closed file.. Please ensure the input is a valid JSON with 'destination', 'check_in_date', and 'check_out_date' keys.").
Proof.
  split; [reflexivity|].
  exact (refused_hotel_log_line_is_reported world_stdout_closed (json_text hotel_args)
           EmptyString EmptyString EmptyString
           (PStr "Goa") (PStr "2025-10-15") (PStr "2025-10-18")
           ("ValueError", "I/O operation on closed file.")
           eq_refl eq_refl eq_refl eq_refl).
Defined.

(** X12.  The log line of [search_flights] is printed inside the [try] and
    before the request: when standard output refuses it, for an argument
    that is well formed, no request is sent and the result is the generic
    error text with the fault's message. *)
Theorem refused_flight_log_line_is_reported (w : World)
    (source destination departure_date : string)
    (origin_city destination_city date_val : pyval) (fault : string * string) :
  argument_field w "origin" source = Some origin_city ->
  argument_field w "destination" source = Some destination_city ->
  argument_field w "departure_date" source = Some date_val ->
  stdout_fault w (flight_log_line w origin_city destination_city date_val) = Some fault ->
  run (search_flights w source destination departure_date)
  = ([], Ok ("An error occurred while searching for flights: " ++ snd fault
             ++ ". Please ensure the input is a valid JSON and the date is in YYYY-MM-DD format.")).
Proof.
  intros Ho Hd Hdt Hprint.
  destruct (argument_field_decoded w _ _ _ Ho) as (entries & Hj & Ho').
  unfold argument_field in Hd, Hdt. rewrite Hj in Hd, Hdt.
  unfold run.
  rewrite (search_flights_run w source _ _ [] entries _ _ _ Hj Ho' Hd Hdt), Hprint.
  reflexivity.
Qed.

Lemma refused_flight_log_line_is_reported_witness :
  argument_field world_surrogate "origin" (json_source flight_args_surrogate_origin)
  = Some (PStr lone_surrogate)
  /\ run (search_flights world_surrogate (json_source flight_args_surrogate_origin)
            EmptyString EmptyString)
     = ([], Ok "An error occurred while searching for flights: 'utf-8' codec can't encode character '\ud800' in position 32: surrogates not allowed. Please ensure the input is a valid JSON and the date is in YYYY-MM-DD format.").
Proof.
  split; [vm_compute; reflexivity|].
  exact (refused_flight_log_line_is_reported world_surrogate
           (json_source flight_args_surrogate_origin) EmptyString EmptyString
           (PStr lone_surrogate) (PStr "Goa") (PStr "2025-10-15")
           ("UnicodeEncodeError",
            "'utf-8' codec can't encode character '\ud800' in position 32: surrogates not allowed")
           eq_refl eq_refl eq_refl eq_refl).
Defined.

(** ** [plan_trip] *)

(** X9.  A response of the agent that is an object without the key
    ["output"] is not a success: the lookup raises, the handler's [except]
    clause catches it, and the reply is status 200 with an error body that
    quotes the missing key. *)
Theorem plan_trip_reports_missing_output (w : World) (request : UserRequest)
    (entries : list (string * pyval)) :
  agent_invoke w (PDict [("input", PStr (master_prompt request))]) = Ok (PDict entries) ->
  dict_lookup "output" entries = None ->
  outcome (post_plan_trip w request)
  = Ok {| reply_status := 200;
          reply_body :=
            PDict [("error", PStr ("An error occurred: " ++ repr_str w "output"))] |}.
Proof.
  intros Hagent Hmissing.
  unfold outcome, run, post_plan_trip. rewrite (plan_trip_run w request []), Hagent.
  cbn [py_getitem]. rewrite Hmissing. unfold error_body, respond. cbn [exn_str snd].
  assert (Henc : json_encodable
                   (PDict [("error", PStr ("An error occurred: " ++ repr_str w "output"))])
                 = true).
  { pose proof (repr_str_encodable w "output") as Hrepr. unfold has_surrogate in Hrepr.
    cbn [json_encodable forallb fst snd]. unfold has_surrogate.
    cbn [append surrogate_after]. vm_compute is_surrogate_lead.
    cbn [andb orb negb]. rewrite Hrepr. reflexivity. }
  rewrite Henc. reflexivity.
Qed.

Lemma plan_trip_reports_missing_output_witness :
  outcome (post_plan_trip world_agent_without_output demo_request)
  = Ok {| reply_status := 200;
          reply_body := PDict [("error", PStr "An error occurred: 'output'")] |}.
Proof.
  exact (plan_trip_reports_missing_output world_agent_without_output demo_request
           [("input", PDict [("input", PStr (master_prompt demo_request))])]
           eq_refl eq_refl).
Defined.

Lemma contains_line (label value tail rest : string) :
  contains (label ++ value ++ tail) (label ++ value ++ tail ++ rest) = true.
Proof.
  apply contains_of_prefix.
  rewrite <- (append_assoc value tail rest), <- (append_assoc label (value ++ tail) rest).
  apply prefix_append.
Qed.

Lemma contains_line_with_unit (label value unit tail rest : string) :
  contains (label ++ value ++ unit ++ tail) (label ++ value ++ unit ++ tail ++ rest) = true.
Proof.
  rewrite <- (append_assoc unit tail rest). apply contains_line.
Qed.

(** X10.  The task text carries every field of the request on a labelled
    line of its own, verbatim, with the duration in decimal; notes that
    are missing or empty are written as "None". *)
Theorem master_prompt_embeds_request (request : UserRequest) :
  contains ("    - Origin: " ++ origin request ++ newline) (master_prompt request) = true
  /\ contains ("    - Destination: " ++ destination request ++ newline)
       (master_prompt request) = true
  /\ contains ("    - Start Date: " ++ start_date request ++ newline)
       (master_prompt request) = true
  /\ contains ("    - Trip Duration: " ++ string_of_Z (duration_days request) ++ " days"
               ++ newline) (master_prompt request) = true
  /\ contains ("    User's additional notes: "
               ++ match notes request with
                  | None => "None"
                  | Some typed => if String.eqb typed EmptyString then "None" else typed
                  end ++ newline) (master_prompt request) = true.
Proof.
  assert (Hnotes : match notes request with
                   | None => "None"
                   | Some typed => if String.eqb typed EmptyString then "None" else typed
                   end = notes_or_none request).
  { unfold notes_or_none. destruct (notes request) as [[|c typed]|]; reflexivity. }
  rewrite Hnotes. unfold master_prompt.
  repeat split.
  - do 3 apply contains_skip. apply contains_line.
  - do 6 apply contains_skip. apply contains_line.
  - do 9 apply contains_skip. apply contains_line.
  - do 12 apply contains_skip. apply contains_line_with_unit.
  - do 17 apply contains_skip. apply contains_line.
Qed.
